(** * Open-AutoGLM websocket server: session context protocol

    A shallow embedding of [server.py]: the per-connection [AgentSession]
    (conversation context and step counter), the [ConnectionManager]
    registry and the request/response loop of [websocket_endpoint],
    together with the properties of the session state machine. *)

From Stdlib Require Import ZArith Ascii String List Lia.
From stdpp Require Import base option list gmap strings fin_maps.
Import ListNotations.

Local Open Scope string_scope.
Local Open Scope list_scope.

(** ** Strings and Python values *)

(** The line feed written [\n] in the Python string literals. *)
Definition nl : string := String "010"%char EmptyString.

(** A field of a received JSON object.  The wire format declares every
    field as a string; a field may also be [null].  [dict.get] turns a
    missing key into [None] as well. *)
Inductive pyval :=
  | PyNone
  | PyStr (s : string).

(** Python truthiness, as tested by [if not screenshot] and [if not task]. *)
Definition truthy (v : pyval) : bool :=
  match v with
  | PyNone => false
  | PyStr EmptyString => false
  | PyStr (String _ _) => true
  end.

(** [str(v)], which is what an f-string placeholder [{v}] inserts. *)
Definition py_str (v : pyval) : string :=
  match v with
  | PyNone => "None"
  | PyStr s => s
  end.

(** [data.get(key)] and [data.get(key, default)] on a dict. *)
Definition dict_get (d : gmap string pyval) (key : string) : pyval :=
  default PyNone (d !! key).

Definition dict_get_default (d : gmap string pyval) (key : string)
    (dflt : pyval) : pyval :=
  default dflt (d !! key).

(** ** Conversation turns *)

Inductive Role := system | user | assistant.

Inductive Part :=
  | TextPart (text : string)
  | ImagePart (image_base64 : string).

Record Message := mkMessage { role : Role; content : list Part }.

Definition is_image (p : Part) : bool :=
  match p with
  | ImagePart _ => true
  | TextPart _ => false
  end.

Definition is_text (p : Part) : bool := negb (is_image p).

(** A turn carries image data when one of its parts is an image. *)
Definition has_image (m : Message) : bool := existsb is_image (content m).

Definition text_parts (m : Message) : list Part :=
  List.filter is_text (content m).

Module MessageBuilder.

(** Modelled from the spec: [MessageBuilder.create_system_message] lives
    in [phone_agent.model.client], which is not part of the sources.
    Section 4.1: a turn with role system and a single text part. *)
Definition create_system_message (prompt : string) : Message :=
  {| role := system; content := [TextPart prompt] |}.

(** Modelled from the spec: [MessageBuilder.create_user_message] lives
    in [phone_agent.model.client], which is not part of the sources.
    Section 4.1: role user, the text part always present, an image part
    present iff an image was supplied. *)
Definition create_user_message (text : string)
    (image_base64 : option string) : Message :=
  {| role := user;
     content := TextPart text ::
                match image_base64 with
                | Some img => [ImagePart img]
                | None => []
                end |}.

(** Modelled from the spec: [MessageBuilder.create_assistant_message]
    lives in [phone_agent.model.client], which is not part of the
    sources.  Section 4.1: role assistant and a single text part; the
    text with its reasoning and action segments is formatted by the
    caller in [server.py]. *)
Definition create_assistant_message (text : string) : Message :=
  {| role := assistant; content := [TextPart text] |}.

(** Modelled from the spec: [MessageBuilder.remove_images_from_message]
    lives in [phone_agent.model.client], which is not part of the
    sources.  Section 4.1: the same turn with all image parts removed,
    the other parts kept in order. *)
Definition remove_images_from_message (m : Message) : Message :=
  {| role := role m; content := List.filter is_text (content m) |}.

End MessageBuilder.

(** ** AgentSession *)

Record AgentSession := mkSession {
  client_id : string;
  context : list Message;
  step_count : Z
}.

(** [AgentSession.__init__] *)
Definition AgentSession_init (cid : string) : AgentSession :=
  {| client_id := cid; context := []; step_count := 0 |}.

Section Session.

(** [SYSTEM_PROMPT = get_system_prompt("cn")]: the prompt table is outside
    the sources, so the constant is a parameter. *)
Variable SYSTEM_PROMPT : string.

Definition init_text (task screen_info : string) : string :=
  task +:+ nl +:+ nl +:+ "Screen Info: " +:+ screen_info.

Definition step_text (screen_info : string) : string :=
  "** Screen Info **" +:+ nl +:+ nl +:+ screen_info.

Definition init_session (task screen_info screenshot_base64 : string)
    (self : AgentSession) : AgentSession :=
  let context0 : list Message := [] in
  let context1 :=
    context0 ++ [MessageBuilder.create_system_message SYSTEM_PROMPT] in
  let text_content := init_text task screen_info in
  {| client_id := client_id self;
     context := context1 ++
       [MessageBuilder.create_user_message text_content
          (Some screenshot_base64)];
     step_count := 1 |}.

(** [self.context[-1] = remove_images_from_message(self.context[-1])],
    guarded by [if self.context]. *)
Definition compact_last (ctx : list Message) : list Message :=
  match last ctx with
  | Some m =>
      <[pred (length ctx) := MessageBuilder.remove_images_from_message m]> ctx
  | None => ctx
  end.

Definition step_session (screen_info screenshot_base64 : string)
    (self : AgentSession) : AgentSession :=
  let step_count' := (step_count self + 1)%Z in
  let context1 := compact_last (context self) in
  let text_content := step_text screen_info in
  {| client_id := client_id self;
     context := context1 ++
       [MessageBuilder.create_user_message text_content
          (Some screenshot_base64)];
     step_count := step_count' |}.

Definition assistant_text (thinking action_str : string) : string :=
  "<think>" +:+ thinking +:+ "</think><answer>" +:+ action_str
    +:+ "</answer>".

Definition add_assistant_response (thinking action_str : string)
    (self : AgentSession) : AgentSession :=
  {| client_id := client_id self;
     context := context self ++
       [MessageBuilder.create_assistant_message
          (assistant_text thinking action_str)];
     step_count := step_count self |}.

End Session.

(** ** Exceptions and fallible calls *)

(** The exception classes the handler distinguishes.  All of them derive
    from [Exception]. *)
Inductive ExnClass :=
  | WebSocketDisconnect
  | ValueError
  | AttributeError
  | OtherException.

(** A raised exception: its class and [str(e)]. *)
Record Exn := mkExn { exn_class : ExnClass; exn_str : string }.

Inductive Result (A : Type) :=
  | Ok (a : A)
  | Raise (e : Exn).

Arguments Ok {A} a.
Arguments Raise {A} e.

(** ** Wire messages *)

(** What [receive_json] decodes: a JSON object, or another JSON value
    (array, string, number, ...), of which only the Python type name
    matters. *)
Inductive Json :=
  | JObject (fields : gmap string pyval)
  | JOther (type_name : string).

(** [data.get] on a value that is no dict. *)
Definition no_attribute (type_name attr : string) : Exn :=
  {| exn_class := AttributeError;
     exn_str := "'" +:+ type_name +:+ "' object has no attribute '"
                +:+ attr +:+ "'" |}.

(** [req_type == "init"] *)
Definition py_eq_str (v : pyval) (s : string) : bool :=
  match v with
  | PyStr t => String.eqb t s
  | PyNone => false
  end.

(** The reply of [model_client.request]. *)
Record ModelResponse := mkResponse { thinking : string; action : string }.

(** Values of the dict returned by [parse_action]. *)
Inductive ActionValue :=
  | AStr (s : string)
  | AInt (n : Z)
  | AList (l : list Z).

(** The dict built in the [except ValueError] branch. *)
Definition finish_action (raw : string) : gmap string ActionValue :=
  <["_metadata" := AStr "finish"]> {["message" := AStr raw]}.

(** [action_data.get("_metadata") == "finish"] *)
Definition is_finish (action_data : gmap string ActionValue) : bool :=
  match action_data !! "_metadata" with
  | Some (AStr s) => String.eqb s "finish"
  | _ => false
  end.

(** The payloads of [send_json]. *)
Inductive OutMsg :=
  | ErrorPayload (message : string)
  | SuccessPayload (step : Z) (thinking : string)
      (action : gmap string ActionValue) (raw_response : string)
      (finished : bool).

Definition status (o : OutMsg) : string :=
  match o with
  | ErrorPayload _ => "error"
  | SuccessPayload _ _ _ _ _ => "success"
  end.

(** How one pass through the body of [while True] ends: with the next
    iteration ([continue] or the end of the body), or with an exception
    that leaves the loop. *)
Inductive Flow :=
  | Next
  | Propagate (e : Exn).

Section Coordinator.

Variable SYSTEM_PROMPT : string.

(** [parse_action] from [phone_agent.actions.handler]: a pure function of
    the action text, outside the sources. *)
Variable parse_action : string -> Result (gmap string ActionValue).

(** Step 2 of the loop body, "update the session context": [None] is the
    [continue] after the reply for a missing task. *)
Definition update_context (d : gmap string pyval) (session : AgentSession)
    : option AgentSession :=
  let req_type := dict_get d "type" in
  let screenshot := dict_get d "screenshot" in
  let screen_info := dict_get_default d "screen_info" (PyStr "Unknown Page") in
  if py_eq_str req_type "init" then
    let task := dict_get d "task" in
    if negb (truthy task) then None
    else Some (init_session SYSTEM_PROMPT (py_str task)
                 (py_str screen_info) (py_str screenshot) session)
  else if py_eq_str req_type "step" then
    Some (step_session (py_str screen_info) (py_str screenshot) session)
  else Some session.

(** Step 4, "parse the action": [try: parse_action(...)] with its
    [except ValueError]; any other exception propagates. *)
Definition parse_or_finish (raw : string)
    : Result (gmap string ActionValue) :=
  match parse_action raw with
  | Ok action_data => Ok action_data
  | Raise e =>
    match exn_class e with
    | ValueError => Ok (finish_action raw)
    | _ => Raise e
    end
  end.

(** The body of the loop after [receive_json] has returned [data];
    [request] is the behaviour of [model_client.request] during this
    exchange. *)
Definition loop_body (data : Json)
    (request : list Message -> Result ModelResponse)
    (session : AgentSession) : AgentSession * list OutMsg * Flow :=
  match data with
  | JOther ty => (session, [], Propagate (no_attribute ty "get"))
  | JObject d =>
    if negb (truthy (dict_get d "screenshot")) then
      (session, [ErrorPayload "Missing screenshot"], Next)
    else
      match update_context d session with
      | None => (session, [ErrorPayload "Missing task for init"], Next)
      | Some session1 =>
        match request (context session1) with
        | Raise e =>
          (session1,
           [ErrorPayload ("Model inference failed: " +:+ exn_str e)], Next)
        | Ok response =>
          match parse_or_finish (action response) with
          | Raise e => (session1, [], Propagate e)
          | Ok action_data =>
            let session2 :=
              add_assistant_response (thinking response) (action response)
                session1 in
            (session2,
             [SuccessPayload (step_count session2) (thinking response)
                action_data (action response) (is_finish action_data)],
             Next)
          end
        end
      end
  end.

End Coordinator.

(** ** ConnectionManager *)

(** A connection handle. *)
Inductive WebSocket := Socket (id : nat).

(** The two dicts of the manager.  A session is a Python object: the registry
    holds a reference to it, the object itself lives in the store. *)
Record ConnectionManager := mkManager {
  active_connections : gmap string WebSocket;
  sessions : gmap string nat
}.

Record Server := mkServer {
  manager : ConnectionManager;
  heap : gmap nat AgentSession
}.

Definition ConnectionManager_init : ConnectionManager :=
  {| active_connections := ∅; sessions := ∅ |}.

Definition Server_init : Server :=
  {| manager := ConnectionManager_init; heap := ∅ |}.

(** [connect]: both dict entries are assigned; the session is a newly
    allocated object. *)
Definition connect (websocket : WebSocket) (cid : string) (srv : Server)
    : Server :=
  let l := fresh (dom (heap srv)) in
  {| manager :=
       {| active_connections :=
            <[cid := websocket]> (active_connections (manager srv));
          sessions := <[cid := l]> (sessions (manager srv)) |};
     heap := <[l := AgentSession_init cid]> (heap srv) |}.

Definition disconnect (cid : string) (m : ConnectionManager)
    : ConnectionManager :=
  let connections1 :=
    if decide (is_Some (active_connections m !! cid))
    then delete cid (active_connections m)
    else active_connections m in
  let sessions1 :=
    if decide (is_Some (sessions m !! cid))
    then delete cid (sessions m)
    else sessions m in
  {| active_connections := connections1; sessions := sessions1 |}.

Definition get_session (cid : string) (m : ConnectionManager) : option nat :=
  sessions m !! cid.

(** ** The connection handler *)

(** One round of the loop as the environment decides it: what
    [receive_json] does, and how the model service behaves if it is
    called. *)
Record Exchange := mkExchange {
  received : Result Json;
  model_request : list Message -> Result ModelResponse
}.

(** Where the loop stands once the given exchanges are used up. *)
Inductive LoopState :=
  | Receiving
  | Raised (e : Exn).

(** Where the handler stands: suspended in [receive_json], or returned. *)
Inductive Handler :=
  | Waiting
  | Returned.

Section Endpoint.

Variable SYSTEM_PROMPT : string.
Variable parse_action : string -> Result (gmap string ActionValue).

(** [while True] over the exchanges of one connection; [session] is the
    reference held in the handler's local variable. *)
Fixpoint message_loop (session : nat) (events : list Exchange)
    (h : gmap nat AgentSession)
    : gmap nat AgentSession * list OutMsg * LoopState :=
  match events with
  | [] => (h, [], Receiving)
  | ev :: rest =>
    match received ev with
    | Raise e => (h, [], Raised e)
    | Ok data =>
      match h !! session with
      | None => (h, [], Raised (no_attribute "NoneType" "context"))
      | Some s =>
        let '(s', out, flow) :=
          loop_body SYSTEM_PROMPT parse_action data (model_request ev) s in
        let h' := <[session := s']> h in
        match flow with
        | Propagate e => (h', out, Raised e)
        | Next =>
          let '(h'', out', st) := message_loop session rest h' in
          (h'', out ++ out', st)
        end
      end
    end
  end.

(** The two [except] clauses around the loop. *)
Definition handle_exit (cid : string) (m : ConnectionManager) (e : Exn)
    : ConnectionManager * list OutMsg :=
  match exn_class e with
  | WebSocketDisconnect => (disconnect cid m, [])
  | _ => (m, [ErrorPayload (exn_str e)])
  end.

Definition websocket_endpoint (websocket : WebSocket) (cid : string)
    (events : list Exchange) (srv : Server)
    : Server * list OutMsg * Handler :=
  let srv1 := connect websocket cid srv in
  let '(h, out, st) :=
    match get_session cid (manager srv1) with
    | Some session => message_loop session events (heap srv1)
    | None => (heap srv1, [], Raised (no_attribute "NoneType" "context"))
    end in
  match st with
  | Receiving => ({| manager := manager srv1; heap := h |}, out, Waiting)
  | Raised e =>
    let '(m, out') := handle_exit cid (manager srv1) e in
    ({| manager := m; heap := h |}, out ++ out', Returned)
  end.

End Endpoint.

(** ** Runs of answered steps *)

(** The number of turns of a context that carry image data. *)
Definition image_turns (ctx : list Message) : nat :=
  length (List.filter has_image ctx).

(** A validated [step] message together with the reply the coordinator
    records for it. *)
Record StepExchange := mkStep {
  se_screen_info : string;
  se_screenshot : string;
  se_thinking : string;
  se_action : string
}.

(** [step_session] followed by [add_assistant_response], as in a pass
    through the loop body in which the model answers. *)
Definition answered_step (x : StepExchange) (s : AgentSession)
    : AgentSession :=
  add_assistant_response (se_thinking x) (se_action x)
    (step_session (se_screen_info x) (se_screenshot x) s).

Definition answered_steps (xs : list StepExchange) (s : AgentSession)
    : AgentSession :=
  fold_left (fun acc x => answered_step x acc) xs s.

(** The two turns an answered step builds. *)
Definition exchange_turns (x : StepExchange) : list Message :=
  [MessageBuilder.create_user_message (step_text (se_screen_info x))
     (Some (se_screenshot x));
   MessageBuilder.create_assistant_message
     (assistant_text (se_thinking x) (se_action x))].

(** The context ends with a turn that carries no image. *)
Definition ends_without_image (ctx : list Message) : Prop :=
  exists pre m, ctx = pre ++ [m] /\ has_image m = false.

(** ** A concrete environment, for running the definitions *)

Definition demo_prompt : string := "You are a phone agent.".

Definition demo_parse (raw : string) : Result (gmap string ActionValue) :=
  if String.eqb raw "do(action=Home)"
  then Ok (<["_metadata" := AStr "do"]> {["action" := AStr "Home"]})
  else Raise {| exn_class := ValueError;
                exn_str := "Failed to parse action" |}.

Definition demo_reply (thinking action : string)
    : list Message -> Result ModelResponse :=
  fun _ => Ok {| thinking := thinking; action := action |}.

Definition demo_failure : list Message -> Result ModelResponse :=
  fun _ => Raise {| exn_class := OtherException;
                    exn_str := "Connection refused" |}.

Definition demo_object (fields : list (string * pyval)) : Json :=
  JObject (list_to_map fields).

Definition demo_init : gmap string pyval :=
  list_to_map [("type", PyStr "init"); ("task", PyStr "buy lunch");
               ("screenshot", PyStr "IMGA"); ("screen_info", PyStr "Home")].

Definition demo_step : gmap string pyval :=
  list_to_map [("type", PyStr "step"); ("screenshot", PyStr "IMGB");
               ("screen_info", PyStr "AppOpen")].

Definition demo_session : AgentSession :=
  add_assistant_response "open the app" "do(action=Home)"
    (init_session demo_prompt "buy lunch" "Home" "IMGA"
       (AgentSession_init "c1")).

Definition demo_step2 : gmap string pyval :=
  list_to_map [("type", PyStr "step"); ("screenshot", PyStr "IMGC")].

Definition demo_no_screenshot : gmap string pyval :=
  list_to_map [("type", PyStr "init"); ("task", PyStr "buy lunch")].

Definition demo_unknown_type : gmap string pyval :=
  list_to_map [("type", PyStr "reset"); ("screenshot", PyStr "IMGC")].

Definition demo_home : gmap string ActionValue :=
  <["_metadata" := AStr "do"]> {["action" := AStr "Home"]}.

Definition demo_value_error : Exn :=
  {| exn_class := ValueError; exn_str := "Failed to parse action" |}.

Definition demo_refused : Exn :=
  {| exn_class := OtherException; exn_str := "Connection refused" |}.

(** A payload that is valid JSON but no object: the text [[]]. *)
Definition demo_array : Exchange :=
  {| received := Ok (JOther "list"); model_request := demo_failure |}.

Definition demo_init_exchange : Exchange :=
  {| received := Ok (JObject demo_init);
     model_request := demo_reply "open the app" "do(action=Home)" |}.

(** The session the registry leads to for a client id. *)
Definition registered_session (cid : string) (srv : Server)
    : option AgentSession :=
  match get_session cid (manager srv) with
  | Some l => heap srv !! l
  | None => None
  end.

(** The server while the handler of client [c1] waits for its second
    message. *)
Definition demo_server : Server :=
  fst (fst (websocket_endpoint demo_prompt demo_parse (Socket 1) "c1"
              [demo_init_exchange] Server_init)).

(** ** Further runs *)

(** [step_session] called again and again with no reply recorded in
    between, as when every model call fails; each element is the screen
    info and the screenshot of one step. *)
Definition unanswered_steps (xs : list (string * string)) (s : AgentSession)
    : AgentSession :=
  fold_left (fun acc x => step_session (fst x) (snd x) acc) xs s.

(** Only the last turn of the context carries image data. *)
Definition image_only_last (ctx : list Message) : Prop :=
  exists pre m, ctx = pre ++ [m] /\ image_turns pre = 0 /\ has_image m = true.

(** The context [ctx'] is [ctx] with the turns [added] behind it, as far as
    roles and text parts go: image parts may have gone. *)
Definition history_extends (ctx ctx' added : list Message) : Prop :=
  map role ctx' = map role ctx ++ map role added
  /\ map text_parts ctx' = map text_parts ctx ++ map text_parts added.

(** A further connection: its handle, its client id and what its handler
    receives. *)
Record Connection := mkConnection {
  conn_socket : WebSocket;
  conn_id : string;
  conn_events : list Exchange
}.

(** The handlers of further connections, run one after the other, each
    from [connect] until it returns or has used up its messages. *)
Definition run_connections (SYSTEM_PROMPT : string)
    (parse_action : string -> Result (gmap string ActionValue))
    (cs : list Connection) (srv : Server) : Server :=
  fold_left
    (fun acc c =>
       fst (fst (websocket_endpoint SYSTEM_PROMPT parse_action
                   (conn_socket c) (conn_id c) (conn_events c) acc)))
    cs srv.

(** An answered [step] of the demo client. *)
Definition demo_step_exchange : Exchange :=
  {| received := Ok (JObject demo_step);
     model_request := demo_reply "look" "do(action=Home)" |}.

(** The peer of the demo client goes away. *)
Definition demo_closed : Exchange :=
  {| received := Raise {| exn_class := WebSocketDisconnect;
                          exn_str := "1006" |};
     model_request := demo_failure |}.

(** A parser that breaks with an exception that is no [ValueError]. *)
Definition demo_broken_parse (raw : string)
    : Result (gmap string ActionValue) :=
  Raise {| exn_class := OtherException; exn_str := "parser crashed" |}.

(** * Properties *)

(** ** Turns and image removal *)

Lemma filter_is_text_no_image (ps : list Part) :
  existsb is_image ps = false -> List.filter is_text ps = ps.
Proof.
  induction ps as [|p ps IH]; simpl; [reflexivity|].
  unfold is_text at 1. destruct (is_image p); simpl; [discriminate|].
  intros H. f_equal. exact (IH H).
Qed.

Lemma existsb_image_filter_text (ps : list Part) :
  existsb is_image (List.filter is_text ps) = false.
Proof.
  induction ps as [|p ps IH]; simpl; [reflexivity|].
  unfold is_text at 1. destruct (is_image p) eqn:E; simpl; [exact IH|].
  rewrite E. exact IH.
Qed.

Lemma remove_images_no_image (m : Message) :
  has_image m = false -> MessageBuilder.remove_images_from_message m = m.
Proof.
  destruct m as [r ps]. unfold has_image, MessageBuilder.remove_images_from_message.
  simpl. intros H. f_equal. apply filter_is_text_no_image, H.
Qed.

Lemma has_image_remove_images (m : Message) :
  has_image (MessageBuilder.remove_images_from_message m) = false.
Proof. apply existsb_image_filter_text. Qed.

Lemma text_parts_remove_images (m : Message) :
  text_parts (MessageBuilder.remove_images_from_message m) = text_parts m.
Proof.
  unfold text_parts. simpl. induction (content m) as [|p ps IH]; simpl;
    [reflexivity|].
  destruct (is_text p) eqn:E; simpl; rewrite ?E, IH; reflexivity.
Qed.

(** ** Compaction *)

Lemma compact_last_nil : compact_last [] = [].
Proof. reflexivity. Qed.

Lemma compact_last_snoc (pre : list Message) (m : Message) :
  compact_last (pre ++ [m])
  = pre ++ [MessageBuilder.remove_images_from_message m].
Proof.
  unfold compact_last. rewrite last_snoc, length_app. simpl.
  replace (pred (length pre + 1)) with (length pre + 0) by lia.
  rewrite insert_app_r. reflexivity.
Qed.

Lemma compact_last_no_image (pre : list Message) (m : Message) :
  has_image m = false -> compact_last (pre ++ [m]) = pre ++ [m].
Proof.
  intros H. rewrite compact_last_snoc, remove_images_no_image; auto.
Qed.

Lemma image_turns_app (l1 l2 : list Message) :
  image_turns (l1 ++ l2) = image_turns l1 + image_turns l2.
Proof. unfold image_turns. rewrite List.filter_app, length_app. reflexivity. Qed.

(** ** Session operations *)

Section SessionFacts.

Variable SYSTEM_PROMPT : string.

(** C7: from any prior session state, [init_session] leaves a context of
    exactly two turns, the system turn with the system prompt and then
    the user turn with the task text, the screen info and the
    screenshot, and a step counter of 1. *)
Theorem init_session_resets (task screen_info screenshot : string)
    (s : AgentSession) :
  let s' := init_session SYSTEM_PROMPT task screen_info screenshot s in
  context s'
  = [ {| role := system; content := [TextPart SYSTEM_PROMPT] |};
      {| role := user;
         content := [TextPart (task +:+ nl +:+ nl +:+ "Screen Info: "
                               +:+ screen_info);
                     ImagePart screenshot] |} ]
  /\ length (context s') = 2
  /\ step_count s' = 1%Z
  /\ client_id s' = client_id s.
Proof. cbv zeta. repeat split. Qed.

(** The result of [init_session] does not depend on the earlier context
    or counter. *)
Lemma init_session_forgets (task screen_info screenshot : string)
    (s1 s2 : AgentSession) :
  client_id s1 = client_id s2 ->
  init_session SYSTEM_PROMPT task screen_info screenshot s1
  = init_session SYSTEM_PROMPT task screen_info screenshot s2.
Proof. intros H. unfold init_session. rewrite H. reflexivity. Qed.

Lemma step_session_snoc (screen_info screenshot : string)
    (s : AgentSession) (pre : list Message) (m : Message) :
  context s = pre ++ [m] ->
  context (step_session screen_info screenshot s)
  = pre ++ [MessageBuilder.remove_images_from_message m;
            MessageBuilder.create_user_message (step_text screen_info)
              (Some screenshot)].
Proof.
  intros H. unfold step_session. simpl. rewrite H, compact_last_snoc.
  rewrite <- app_assoc. reflexivity.
Qed.

(** C10: on a non-empty context [step_session] keeps every turn before the
    last one, replaces the last one by itself without its image parts
    (same role, same text parts in the same order), appends exactly one
    user turn, and adds 1 to the step counter. *)
Theorem step_session_frame (screen_info screenshot : string)
    (s : AgentSession) :
  context s <> [] ->
  exists (pre : list Message) (m : Message),
    context s = pre ++ [m]
    /\ context (step_session screen_info screenshot s)
       = pre ++ [MessageBuilder.remove_images_from_message m]
             ++ [ {| role := user;
                     content := [TextPart (step_text screen_info);
                                 ImagePart screenshot] |} ]
    /\ role (MessageBuilder.remove_images_from_message m) = role m
    /\ content (MessageBuilder.remove_images_from_message m)
       = List.filter is_text (content m)
    /\ text_parts (MessageBuilder.remove_images_from_message m)
       = text_parts m
    /\ has_image (MessageBuilder.remove_images_from_message m) = false
    /\ length (context (step_session screen_info screenshot s))
       = S (length (context s))
    /\ step_count (step_session screen_info screenshot s)
       = (step_count s + 1)%Z.
Proof.
  intros Hne. apply last_is_Some in Hne as [m Hm].
  apply last_Some in Hm as [pre Hpre]. exists pre, m.
  pose proof (step_session_snoc screen_info screenshot s pre m Hpre) as Hc.
  repeat split; auto.
  - apply text_parts_remove_images.
  - apply has_image_remove_images.
  - rewrite Hc, Hpre, !length_app. simpl. lia.
Qed.

(** C10, read position by position: the turns below the last index are
    the ones that were there on entry. *)
Lemma step_session_lookup_old (screen_info screenshot : string)
    (s : AgentSession) (i : nat) :
  S i < length (context s) ->
  context (step_session screen_info screenshot s) !! i = context s !! i.
Proof.
  intros Hi. destruct (last (context s)) as [m|] eqn:Hl.
  - apply last_Some in Hl as [pre Hpre].
    rewrite (step_session_snoc _ _ _ _ _ Hpre), Hpre.
    rewrite Hpre, length_app in Hi. simpl in Hi.
    rewrite !lookup_app_l by lia. reflexivity.
  - apply last_None in Hl. rewrite Hl in Hi. simpl in Hi. lia.
Qed.

End SessionFacts.

(** ** Images over a run of answered steps *)

Lemma step_session_after_reply (screen_info screenshot : string)
    (s : AgentSession) :
  ends_without_image (context s) ->
  context (step_session screen_info screenshot s)
  = context s ++ [MessageBuilder.create_user_message (step_text screen_info)
                    (Some screenshot)].
Proof.
  intros (pre & m & Hc & Hm). unfold step_session. simpl.
  rewrite Hc, compact_last_no_image by exact Hm. reflexivity.
Qed.

Lemma answered_step_context (x : StepExchange) (s : AgentSession) :
  ends_without_image (context s) ->
  context (answered_step x s) = context s ++ exchange_turns x.
Proof.
  intros H. unfold answered_step, add_assistant_response. cbn [context].
  rewrite step_session_after_reply by exact H.
  rewrite <- app_assoc. reflexivity.
Qed.

Lemma answered_step_ends (x : StepExchange) (s : AgentSession) :
  ends_without_image (context (answered_step x s)).
Proof.
  unfold answered_step, add_assistant_response. simpl.
  eexists _, _. split; [reflexivity|reflexivity].
Qed.

Lemma answered_steps_context (xs : list StepExchange) :
  forall s : AgentSession,
    ends_without_image (context s) ->
    context (answered_steps xs s)
    = context s ++ concat (map exchange_turns xs)
    /\ ends_without_image (context (answered_steps xs s)).
Proof.
  induction xs as [|x xs IH]; intros s Hs.
  - simpl. rewrite app_nil_r. auto.
  - change (answered_steps (x :: xs) s)
      with (answered_steps xs (answered_step x s)).
    destruct (IH (answered_step x s) (answered_step_ends x s)) as [Hc He].
    split; [|exact He].
    rewrite Hc, answered_step_context by exact Hs.
    simpl. rewrite <- app_assoc. reflexivity.
Qed.

Lemma image_turns_exchanges (xs : list StepExchange) :
  image_turns (concat (map exchange_turns xs)) = length xs.
Proof.
  induction xs as [|x xs IH]; [reflexivity|].
  change (concat (map exchange_turns (x :: xs)))
    with (exchange_turns x ++ concat (map exchange_turns xs)).
  rewrite image_turns_app, IH. reflexivity.
Qed.

(** C1, as the code behaves: in a run of validated exchanges, each one
    answered by the model, the compaction in [step_session] meets the
    assistant turn recorded last and removes nothing.  After the step that
    follows [n] answered steps the context holds [n + 2] turns with image
    data, the user turn of the initialisation among them, where the
    specification has exactly one. *)
Theorem images_accumulate_over_answered_steps (SYSTEM_PROMPT : string)
    (task screen_info screenshot thinking action_str : string)
    (xs : list StepExchange) (x : StepExchange) (s0 : AgentSession) :
  let s1 :=
    add_assistant_response thinking action_str
      (init_session SYSTEM_PROMPT task screen_info screenshot s0) in
  let s :=
    step_session (se_screen_info x) (se_screenshot x) (answered_steps xs s1) in
  image_turns (context s) = length xs + 2
  /\ context s !! 1
     = Some {| role := user;
               content := [TextPart (init_text task screen_info);
                           ImagePart screenshot] |}
  /\ last (context s)
     = Some {| role := user;
               content := [TextPart (step_text (se_screen_info x));
                           ImagePart (se_screenshot x)] |}.
Proof.
  intros s1 s.
  assert (H1 : ends_without_image (context s1)).
  { eexists _, _. split; reflexivity. }
  destruct (answered_steps_context xs s1 H1) as [Hc He].
  assert (Hs : context s
               = context s1 ++ concat (map exchange_turns xs)
                 ++ [MessageBuilder.create_user_message
                       (step_text (se_screen_info x))
                       (Some (se_screenshot x))]).
  { unfold s. rewrite step_session_after_reply by exact He.
    rewrite Hc, <- app_assoc. reflexivity. }
  rewrite Hs. split; [|split].
  - rewrite !image_turns_app, image_turns_exchanges.
    change (image_turns (context s1)) with 1.
    unfold image_turns. simpl. lia.
  - reflexivity.
  - rewrite app_assoc. apply last_snoc.
Qed.

(** C1 at the first step after an answered initialisation: four turns, two
    of them with an image. *)
Example two_images_after_first_step :
  let s := step_session "AppOpen" "IMGB" demo_session in
  map has_image (context s) = [false; true; false; true]
  /\ image_turns (context s) = 2.
Proof. split; reflexivity. Qed.

(** ** [step_session] before any initialisation *)

(** C2 fails as stated: a [step] on the session of a fresh connection
    changes both the context and the step counter, and the coordinator
    answers with a success payload. *)
Lemma step_session_on_empty_changes_session :
  let s0 := AgentSession_init "c1" in
  let s := step_session "AppOpen" "IMGB" s0 in
  context s0 = []
  /\ ~ (context s = context s0 /\ step_count s = step_count s0)
  /\ map status
       (snd (fst (loop_body demo_prompt demo_parse (JObject demo_step)
                    (demo_reply "look" "do(action=Home)") s0)))
     = ["success"].
Proof.
  split; [reflexivity|]. split.
  - intros [H _]. discriminate H.
  - vm_compute. reflexivity.
Qed.

(** ** The loop body *)

Lemma py_eq_str_true (v : pyval) (t : string) :
  py_eq_str v t = true -> v = PyStr t.
Proof.
  destruct v as [|u]; simpl; [discriminate|].
  intros H. apply String.eqb_eq in H. congruence.
Qed.

Section BodyFacts.

Variable SYSTEM_PROMPT : string.
Variable parse_action : string -> Result (gmap string ActionValue).

Local Abbreviation body := (loop_body SYSTEM_PROMPT parse_action).
Local Abbreviation loop := (message_loop SYSTEM_PROMPT parse_action).

Lemma update_context_step (d : gmap string pyval) (s : AgentSession) :
  py_eq_str (dict_get d "type") "step" = true ->
  update_context SYSTEM_PROMPT d s
  = Some (step_session
            (py_str (dict_get_default d "screen_info" (PyStr "Unknown Page")))
            (py_str (dict_get d "screenshot")) s).
Proof.
  intros H. unfold update_context.
  rewrite (py_eq_str_true _ _ H). reflexivity.
Qed.

Lemma update_context_other (d : gmap string pyval) (s : AgentSession) :
  py_eq_str (dict_get d "type") "init" = false ->
  py_eq_str (dict_get d "type") "step" = false ->
  update_context SYSTEM_PROMPT d s = Some s.
Proof. intros Hi Hs. unfold update_context. rewrite Hi, Hs. reflexivity. Qed.

(** The body on a message that passed validation and whose model call
    and parse went through. *)
Lemma loop_body_answered (d : gmap string pyval)
    (request : list Message -> Result ModelResponse)
    (s s1 : AgentSession) (response : ModelResponse)
    (action_data : gmap string ActionValue) :
  truthy (dict_get d "screenshot") = true ->
  update_context SYSTEM_PROMPT d s = Some s1 ->
  request (context s1) = Ok response ->
  parse_or_finish parse_action (action response) = Ok action_data ->
  body (JObject d) request s
  = (add_assistant_response (thinking response) (action response) s1,
     [SuccessPayload (step_count s1) (thinking response) action_data
        (action response) (is_finish action_data)],
     Next).
Proof.
  intros Hshot Hup Hreq Hparse. unfold loop_body.
  rewrite Hshot, Hup, Hreq, Hparse. reflexivity.
Qed.

(** A validated [step] message that the model answers is one answered
    step of the session. *)
Lemma loop_body_step_answered (d : gmap string pyval)
    (request : list Message -> Result ModelResponse)
    (s : AgentSession) (response : ModelResponse)
    (action_data : gmap string ActionValue) :
  let x := {| se_screen_info :=
                py_str (dict_get_default d "screen_info"
                          (PyStr "Unknown Page"));
              se_screenshot := py_str (dict_get d "screenshot");
              se_thinking := thinking response;
              se_action := action response |} in
  truthy (dict_get d "screenshot") = true ->
  py_eq_str (dict_get d "type") "step" = true ->
  request (context (step_session (se_screen_info x) (se_screenshot x) s))
  = Ok response ->
  parse_or_finish parse_action (action response) = Ok action_data ->
  fst (fst (body (JObject d) request s)) = answered_step x s.
Proof.
  intros x Hshot Hstep Hreq Hparse.
  rewrite (loop_body_answered d request s _ response action_data Hshot
             (update_context_step d s Hstep) Hreq Hparse).
  reflexivity.
Qed.

Lemma loop_body_missing_screenshot (d : gmap string pyval)
    (request : list Message -> Result ModelResponse) (s : AgentSession) :
  truthy (dict_get d "screenshot") = false ->
  body (JObject d) request s
  = (s, [ErrorPayload "Missing screenshot"], Next).
Proof. intros H. unfold loop_body. rewrite H. reflexivity. Qed.

Lemma loop_body_missing_task (d : gmap string pyval)
    (request : list Message -> Result ModelResponse) (s : AgentSession) :
  truthy (dict_get d "screenshot") = true ->
  py_eq_str (dict_get d "type") "init" = true ->
  truthy (dict_get d "task") = false ->
  body (JObject d) request s
  = (s, [ErrorPayload "Missing task for init"], Next).
Proof.
  intros Hshot Hinit Htask. unfold loop_body, update_context.
  rewrite Hshot, Hinit, Htask. reflexivity.
Qed.

(** A pass through the body that ends with [Next] is followed by the
    rest of the loop, run on the store with the session written back. *)
Lemma message_loop_next (session : nat) (ev : Exchange)
    (rest : list Exchange) (h : gmap nat AgentSession) (data : Json)
    (s s' : AgentSession) (out : list OutMsg) :
  received ev = Ok data ->
  h !! session = Some s ->
  body data (model_request ev) s = (s', out, Next) ->
  loop session (ev :: rest) h
  = (let '(h', out', st) := loop session rest (<[session := s']> h) in
     (h', out ++ out', st)).
Proof.
  intros Hrecv Hs Hbody. simpl. rewrite Hrecv, Hs, Hbody. reflexivity.
Qed.

(** C6: an [init] or [step] message whose screenshot is empty or missing,
    and an [init] message whose task is empty or missing, gets an error
    payload; the session object keeps its context and step counter, and
    the loop goes on with the next message on the unchanged store. *)
Theorem invalid_message_rejected (session : nat) (ev : Exchange)
    (rest : list Exchange) (h : gmap nat AgentSession)
    (d : gmap string pyval) (s : AgentSession) :
  received ev = Ok (JObject d) ->
  h !! session = Some s ->
  ((py_eq_str (dict_get d "type") "init" = true
    \/ py_eq_str (dict_get d "type") "step" = true)
   /\ truthy (dict_get d "screenshot") = false)
  \/ (py_eq_str (dict_get d "type") "init" = true
      /\ truthy (dict_get d "task") = false) ->
  exists message : string,
    body (JObject d) (model_request ev) s
    = (s, [ErrorPayload message], Next)
    /\ status (ErrorPayload message) = "error"
    /\ loop session (ev :: rest) h
       = (let '(h', out, st) := loop session rest h in
          (h', ErrorPayload message :: out, st)).
Proof.
  intros Hrecv Hs Hbad.
  assert (Hb : exists message : string,
             body (JObject d) (model_request ev) s
             = (s, [ErrorPayload message], Next)).
  { destruct (truthy (dict_get d "screenshot")) eqn:Hshot.
    - destruct Hbad as [[_ Hf]|[Hinit Htask]]; [discriminate Hf|].
      eexists. apply loop_body_missing_task; assumption.
    - eexists. apply loop_body_missing_screenshot; assumption. }
  destruct Hb as [message Hb]. exists message.
  split; [exact Hb|]. split; [reflexivity|].
  rewrite (message_loop_next _ _ _ _ _ _ _ _ Hrecv Hs Hb).
  rewrite (insert_id h session s Hs). reflexivity.
Qed.

(** C8: when [parse_action] raises [ValueError] on the action text of a
    model reply, the body records the assistant turn and sends a success
    payload with the finish marker, [finished] true and the action text
    unchanged in [raw_response]. *)
Theorem unrecognized_action_finishes (d : gmap string pyval)
    (request : list Message -> Result ModelResponse)
    (s s1 : AgentSession) (response : ModelResponse) (e : Exn) :
  truthy (dict_get d "screenshot") = true ->
  update_context SYSTEM_PROMPT d s = Some s1 ->
  request (context s1) = Ok response ->
  parse_action (action response) = Raise e ->
  exn_class e = ValueError ->
  exists (s2 : AgentSession) (reply : OutMsg),
    body (JObject d) request s = (s2, [reply], Next)
    /\ context s2
       = context s1
         ++ [ {| role := assistant;
                 content := [TextPart (assistant_text (thinking response)
                                         (action response))] |} ]
    /\ step_count s2 = step_count s1
    /\ reply
       = SuccessPayload (step_count s1) (thinking response)
           (finish_action (action response)) (action response) true
    /\ status reply = "success"
    /\ finish_action (action response) !! "message"
       = Some (AStr (action response)).
Proof.
  intros Hshot Hup Hreq Hparse Hclass.
  assert (Hpf : parse_or_finish parse_action (action response)
                = Ok (finish_action (action response))).
  { unfold parse_or_finish. rewrite Hparse, Hclass. reflexivity. }
  eexists _, _. split.
  - apply (loop_body_answered d request s s1 response _ Hshot Hup Hreq Hpf).
  - repeat split.
Qed.

(** C4, as the code behaves: a message whose type is neither [init] nor
    [step] and whose screenshot is present is not answered with an error.
    Neither branch of the update runs, the model is called on the
    context as it stands, and once it answers an assistant turn is
    appended and a success payload is sent. *)
Theorem unknown_type_reaches_model (d : gmap string pyval)
    (request : list Message -> Result ModelResponse)
    (s : AgentSession) (response : ModelResponse)
    (action_data : gmap string ActionValue) :
  truthy (dict_get d "screenshot") = true ->
  py_eq_str (dict_get d "type") "init" = false ->
  py_eq_str (dict_get d "type") "step" = false ->
  request (context s) = Ok response ->
  parse_or_finish parse_action (action response) = Ok action_data ->
  body (JObject d) request s
  = (add_assistant_response (thinking response) (action response) s,
     [SuccessPayload (step_count s) (thinking response) action_data
        (action response) (is_finish action_data)],
     Next).
Proof.
  intros Hshot Hi Hs Hreq Hparse.
  apply loop_body_answered; auto using update_context_other.
Qed.

(** C9: when the model call fails after a validated [step], the body
    sends an error payload and leaves the session as [step_session] made
    it: the new user turn is there and no assistant turn follows it; the
    loop writes that session back and waits for the next message.  A
    validated [step] that comes next and that the model answers succeeds
    on that very session: the loop replies with the error and then with
    the success payload, and the context then holds the unanswered user
    turn (compacted by that step, as every turn that is last on entry),
    the new user turn and the assistant turn. *)
Theorem failed_inference_keeps_user_turn (d : gmap string pyval)
    (request : list Message -> Result ModelResponse)
    (s : AgentSession) (e : Exn) :
  let screen_info :=
    py_str (dict_get_default d "screen_info" (PyStr "Unknown Page")) in
  let screenshot := py_str (dict_get d "screenshot") in
  let u1 := MessageBuilder.create_user_message (step_text screen_info)
              (Some screenshot) in
  let s1 := step_session screen_info screenshot s in
  let failed := {| received := Ok (JObject d); model_request := request |} in
  let error :=
    ErrorPayload ("Model inference failed: " +:+ exn_str e) in
  truthy (dict_get d "screenshot") = true ->
  py_eq_str (dict_get d "type") "step" = true ->
  request (context s1) = Raise e ->
  body (JObject d) request s = (s1, [error], Next)
  /\ context s1 = compact_last (context s) ++ [u1]
  /\ last (context s1) = Some u1
  /\ step_count s1 = (step_count s + 1)%Z
  /\ (forall (session : nat) (h : gmap nat AgentSession),
        h !! session = Some s ->
        loop session [failed] h = (<[session := s1]> h, [error], Receiving))
  /\ forall (d2 : gmap string pyval)
       (request2 : list Message -> Result ModelResponse)
       (response2 : ModelResponse)
       (action_data : gmap string ActionValue),
       let screen_info2 :=
         py_str (dict_get_default d2 "screen_info" (PyStr "Unknown Page")) in
       let screenshot2 := py_str (dict_get d2 "screenshot") in
       let u2 := MessageBuilder.create_user_message (step_text screen_info2)
                   (Some screenshot2) in
       let answered :=
         {| received := Ok (JObject d2); model_request := request2 |} in
       let success :=
         SuccessPayload (step_count s + 2) (thinking response2) action_data
           (action response2) (is_finish action_data) in
       truthy (dict_get d2 "screenshot") = true ->
       py_eq_str (dict_get d2 "type") "step" = true ->
       request2 (context (step_session screen_info2 screenshot2 s1))
       = Ok response2 ->
       parse_or_finish parse_action (action response2) = Ok action_data ->
       exists s2 : AgentSession,
         body (JObject d2) request2 s1 = (s2, [success], Next)
         /\ context s2
            = compact_last (context s)
              ++ [MessageBuilder.remove_images_from_message u1; u2;
                  MessageBuilder.create_assistant_message
                    (assistant_text (thinking response2)
                       (action response2))]
         /\ text_parts (MessageBuilder.remove_images_from_message u1)
            = text_parts u1
         /\ step_count s2 = (step_count s + 2)%Z
         /\ forall (session : nat) (h : gmap nat AgentSession)
              (rest : list Exchange),
              h !! session = Some s ->
              loop session (failed :: answered :: rest) h
              = (let '(h', out, st) :=
                   loop session rest (<[session := s2]> h) in
                 (h', error :: success :: out, st)).
Proof.
  intros screen_info screenshot u1 s1 failed error Hshot Hstep Hreq.
  pose proof (update_context_step d s Hstep) as Hup.
  fold screen_info screenshot s1 in Hup.
  assert (Hbody : body (JObject d) request s = (s1, [error], Next)).
  { unfold loop_body. rewrite Hshot, Hup, Hreq. reflexivity. }
  split; [exact Hbody|].
  split; [reflexivity|]. split; [apply last_snoc|]. split; [reflexivity|].
  split.
  { intros session h Hs.
    rewrite (message_loop_next session failed [] h (JObject d) s s1 [error]
               eq_refl Hs Hbody).
    reflexivity. }
  intros d2 request2 response2 action_data screen_info2 screenshot2 u2
    answered success Hshot2 Hstep2 Hreq2 Hparse2.
  pose proof (update_context_step d2 s1 Hstep2) as Hup2.
  fold screen_info2 screenshot2 in Hup2.
  set (s2 := add_assistant_response (thinking response2) (action response2)
               (step_session screen_info2 screenshot2 s1)).
  assert (Hbody2 : body (JObject d2) request2 s1 = (s2, [success], Next)).
  { rewrite (loop_body_answered d2 request2 s1 _ response2 action_data
               Hshot2 Hup2 Hreq2 Hparse2).
    unfold success, s2.
    replace (step_count (step_session screen_info2 screenshot2 s1))
      with (step_count s + 2)%Z; [reflexivity|].
    simpl. lia. }
  exists s2. split; [exact Hbody2|]. split; [|split; [|split]].
  - unfold s2, add_assistant_response. cbn [context].
    rewrite (step_session_snoc screen_info2 screenshot2 s1
               (compact_last (context s)) u1 eq_refl).
    rewrite <- app_assoc. reflexivity.
  - apply text_parts_remove_images.
  - unfold s2. simpl. lia.
  - intros session h rest Hs.
    rewrite (message_loop_next session failed (answered :: rest) h
               (JObject d) s s1 [error] eq_refl Hs Hbody).
    rewrite (message_loop_next session answered rest (<[session := s1]> h)
               (JObject d2) s1 s2 [success] eq_refl
               (lookup_insert_eq h session s1) Hbody2).
    rewrite insert_insert_eq.
    destruct (loop session rest (<[session := s2]> h)) as [[h' out] st].
    reflexivity.
Qed.

(** C2, as the code behaves: on an empty context [step_session] raises
    nothing; the guard [if self.context] skips the compaction, the user
    turn is appended to the empty context and the step counter is
    incremented.  The handler treats a [step] message that arrives before
    any [init] like every other step: it calls the model on the context of
    that one user turn, and when the model answers it records the reply,
    sends the success payload with the incremented step and goes on with
    the next message. *)
Theorem step_before_init_is_accepted (s : AgentSession) :
  context s = [] ->
  (forall screen_info screenshot : string,
     context (step_session screen_info screenshot s)
     = [ {| role := user;
            content := [TextPart (step_text screen_info);
                        ImagePart screenshot] |} ]
     /\ step_count (step_session screen_info screenshot s)
        = (step_count s + 1)%Z)
  /\ forall (d : gmap string pyval)
       (request : list Message -> Result ModelResponse),
       let screen_info :=
         py_str (dict_get_default d "screen_info" (PyStr "Unknown Page")) in
       let screenshot := py_str (dict_get d "screenshot") in
       let u := {| role := user;
                   content := [TextPart (step_text screen_info);
                               ImagePart screenshot] |} in
       let s1 := step_session screen_info screenshot s in
       truthy (dict_get d "screenshot") = true ->
       py_eq_str (dict_get d "type") "step" = true ->
       body (JObject d) request s
       = match request [u] with
         | Raise e =>
             (s1, [ErrorPayload ("Model inference failed: " +:+ exn_str e)],
              Next)
         | Ok response =>
             match parse_or_finish parse_action (action response) with
             | Raise e => (s1, [], Propagate e)
             | Ok action_data =>
                 (add_assistant_response (thinking response)
                    (action response) s1,
                  [SuccessPayload (step_count s + 1) (thinking response)
                     action_data (action response) (is_finish action_data)],
                  Next)
             end
         end
       /\ forall (session : nat) (h : gmap nat AgentSession)
            (rest : list Exchange) (response : ModelResponse)
            (action_data : gmap string ActionValue),
            h !! session = Some s ->
            request [u] = Ok response ->
            parse_or_finish parse_action (action response) = Ok action_data ->
            loop session
              ({| received := Ok (JObject d); model_request := request |}
               :: rest) h
            = (let '(h', out, st) :=
                 loop session rest
                   (<[session := add_assistant_response (thinking response)
                                   (action response) s1]> h) in
               (h',
                SuccessPayload (step_count s + 1) (thinking response)
                  action_data (action response) (is_finish action_data)
                :: out,
                st)).
Proof.
  intros Hempty.
  assert (Hstep : forall screen_info screenshot : string,
             context (step_session screen_info screenshot s)
             = [ {| role := user;
                    content := [TextPart (step_text screen_info);
                                ImagePart screenshot] |} ]).
  { intros si ss. unfold step_session. cbn [context]. rewrite Hempty.
    reflexivity. }
  split; [intros si ss; split; [apply Hstep|reflexivity]|].
  intros d request screen_info screenshot u s1 Hshot Htype.
  pose proof (update_context_step d s Htype) as Hup.
  fold screen_info screenshot s1 in Hup.
  assert (Hbody : body (JObject d) request s
                  = match request [u] with
                    | Raise e =>
                        (s1,
                         [ErrorPayload ("Model inference failed: "
                                        +:+ exn_str e)], Next)
                    | Ok response =>
                        match parse_or_finish parse_action (action response)
                        with
                        | Raise e => (s1, [], Propagate e)
                        | Ok action_data =>
                            (add_assistant_response (thinking response)
                               (action response) s1,
                             [SuccessPayload (step_count s + 1)
                                (thinking response) action_data
                                (action response) (is_finish action_data)],
                             Next)
                        end
                    end).
  { unfold loop_body. rewrite Hshot, Hup. cbn [negb].
    unfold s1 at 1. rewrite (Hstep screen_info screenshot). fold u.
    destruct (request [u]) as [response|e]; [|reflexivity].
    destruct (parse_or_finish parse_action (action response));
      reflexivity. }
  split; [exact Hbody|].
  intros session h rest response action_data Hs Hreq Hparse.
  rewrite Hreq, Hparse in Hbody.
  rewrite (message_loop_next session
             {| received := Ok (JObject d); model_request := request |}
             rest h (JObject d) s _ _ eq_refl Hs Hbody).
  destruct (loop session rest _) as [[h' out] st]. reflexivity.
Qed.

End BodyFacts.

(** ** The registry *)

Lemma connect_fresh_object (websocket : WebSocket) (cid : string)
    (srv : Server) :
  heap srv !! fresh (dom (heap srv)) = None.
Proof. apply not_elem_of_dom, is_fresh. Qed.

Lemma connect_lookup (websocket : WebSocket) (cid : string) (srv : Server) :
  let l := fresh (dom (heap srv)) in
  active_connections (manager (connect websocket cid srv)) !! cid
  = Some websocket
  /\ get_session cid (manager (connect websocket cid srv)) = Some l
  /\ heap (connect websocket cid srv) !! l = Some (AgentSession_init cid).
Proof.
  unfold connect, get_session. simpl. rewrite !lookup_insert_eq. auto.
Qed.

Lemma connect_keeps_objects (websocket : WebSocket) (cid : string)
    (srv : Server) (l : nat) (s : AgentSession) :
  heap srv !! l = Some s -> heap (connect websocket cid srv) !! l = Some s.
Proof.
  intros H. unfold connect. simpl. rewrite lookup_insert_ne; [exact H|].
  intros E. rewrite <- E, connect_fresh_object in H; [discriminate|auto..].
Qed.

Lemma disconnect_removes (cid : string) (m : ConnectionManager) :
  active_connections (disconnect cid m) !! cid = None
  /\ sessions (disconnect cid m) !! cid = None.
Proof.
  unfold disconnect. simpl. split; case_decide as H.
  - apply lookup_delete_eq.
  - destruct (active_connections m !! cid) eqn:E; [|reflexivity].
    exfalso. apply H. eauto.
  - apply lookup_delete_eq.
  - destruct (sessions m !! cid) eqn:E; [|reflexivity].
    exfalso. apply H. eauto.
Qed.

Lemma disconnect_other (cid cid' : string) (m : ConnectionManager) :
  cid <> cid' ->
  active_connections (disconnect cid m) !! cid' = active_connections m !! cid'
  /\ sessions (disconnect cid m) !! cid' = sessions m !! cid'.
Proof.
  intros Hne. unfold disconnect. simpl.
  split; case_decide; try reflexivity; apply lookup_delete_ne, Hne.
Qed.


(** ** The handler *)

Section EndpointFacts.

Variable SYSTEM_PROMPT : string.
Variable parse_action : string -> Result (gmap string ActionValue).

Local Abbreviation loop := (message_loop SYSTEM_PROMPT parse_action).
Local Abbreviation endpoint :=
  (websocket_endpoint SYSTEM_PROMPT parse_action).

Lemma websocket_endpoint_loop (websocket : WebSocket) (cid : string)
    (events : list Exchange) (srv : Server) :
  endpoint websocket cid events srv
  = (let srv1 := connect websocket cid srv in
     let '(h, out, st) :=
       loop (fresh (dom (heap srv))) events (heap srv1) in
     match st with
     | Receiving => ({| manager := manager srv1; heap := h |}, out, Waiting)
     | Raised e =>
       let '(m, out') := handle_exit cid (manager srv1) e in
       ({| manager := m; heap := h |}, out ++ out', Returned)
     end).
Proof.
  unfold websocket_endpoint.
  destruct (connect_lookup websocket cid srv) as (_ & Hg & _).
  cbv zeta in Hg |- *. rewrite Hg. reflexivity.
Qed.

(** The loop leaves only by an exception: while it has not raised, the
    handler is suspended in [receive_json]. *)
Lemma endpoint_waiting (websocket : WebSocket) (cid : string)
    (events : list Exchange) (srv : Server) (h : gmap nat AgentSession)
    (out : list OutMsg) :
  loop (fresh (dom (heap srv))) events (heap (connect websocket cid srv))
  = (h, out, Receiving) ->
  endpoint websocket cid events srv
  = ({| manager := manager (connect websocket cid srv); heap := h |},
     out, Waiting).
Proof.
  intros H. rewrite websocket_endpoint_loop. cbv zeta. rewrite H.
  reflexivity.
Qed.

(** Exit by [WebSocketDisconnect]: the first [except] clause calls
    [manager.disconnect], and the entry is gone. *)
Lemma endpoint_disconnect_removes_entry (websocket : WebSocket)
    (cid : string) (events : list Exchange) (srv : Server)
    (h : gmap nat AgentSession) (out : list OutMsg) (e : Exn) :
  loop (fresh (dom (heap srv))) events (heap (connect websocket cid srv))
  = (h, out, Raised e) ->
  exn_class e = WebSocketDisconnect ->
  exists srv' : Server,
    endpoint websocket cid events srv = (srv', out, Returned)
    /\ active_connections (manager srv') !! cid = None
    /\ sessions (manager srv') !! cid = None.
Proof.
  intros H Hc. rewrite websocket_endpoint_loop. cbv zeta. rewrite H.
  unfold handle_exit. rewrite Hc. eexists. split.
  - rewrite app_nil_r. reflexivity.
  - cbn [manager]. apply disconnect_removes.
Qed.

(** C3, as the code behaves: when the loop is left by an exception other
    than [WebSocketDisconnect], the second [except] clause sends its
    error payload and the handler returns without calling
    [manager.disconnect]; both registry entries of the client are still
    there. *)
Theorem endpoint_exception_keeps_entry (websocket : WebSocket)
    (cid : string) (events : list Exchange) (srv : Server)
    (h : gmap nat AgentSession) (out : list OutMsg) (e : Exn) :
  loop (fresh (dom (heap srv))) events (heap (connect websocket cid srv))
  = (h, out, Raised e) ->
  exn_class e <> WebSocketDisconnect ->
  exists srv' : Server,
    endpoint websocket cid events srv
    = (srv', out ++ [ErrorPayload (exn_str e)], Returned)
    /\ active_connections (manager srv') !! cid = Some websocket
    /\ sessions (manager srv') !! cid = Some (fresh (dom (heap srv))).
Proof.
  intros H Hc. rewrite websocket_endpoint_loop. cbv zeta. rewrite H.
  unfold handle_exit.
  destruct (connect_lookup websocket cid srv) as (Ha & Hg & _).
  destruct (exn_class e); try congruence;
    (eexists; split; [reflexivity|split; [exact Ha|exact Hg]]).
Qed.

End EndpointFacts.

(** * The theorems on concrete runs *)

Lemma step_session_frame_witness :
  context demo_session <> []
  /\ exists (pre : list Message) (m : Message),
       context demo_session = pre ++ [m]
       /\ context (step_session "AppOpen" "IMGB" demo_session)
          = pre ++ [MessageBuilder.remove_images_from_message m]
                ++ [ {| role := user;
                        content := [TextPart (step_text "AppOpen");
                                    ImagePart "IMGB"] |} ]
       /\ role (MessageBuilder.remove_images_from_message m) = role m
       /\ content (MessageBuilder.remove_images_from_message m)
          = List.filter is_text (content m)
       /\ text_parts (MessageBuilder.remove_images_from_message m)
          = text_parts m
       /\ has_image (MessageBuilder.remove_images_from_message m) = false
       /\ length (context (step_session "AppOpen" "IMGB" demo_session))
          = S (length (context demo_session))
       /\ step_count (step_session "AppOpen" "IMGB" demo_session)
          = (step_count demo_session + 1)%Z.
Proof.
  split; [discriminate|].
  apply (step_session_frame "AppOpen" "IMGB" demo_session). discriminate.
Defined.

Lemma invalid_message_rejected_witness :
  let ev := {| received := Ok (JObject demo_no_screenshot);
               model_request := demo_failure |} in
  let h : gmap nat AgentSession := {[0 := demo_session]} in
  (h !! 0 = Some demo_session
   /\ py_eq_str (dict_get demo_no_screenshot "type") "init" = true
   /\ truthy (dict_get demo_no_screenshot "screenshot") = false)
  /\ exists message : string,
       loop_body demo_prompt demo_parse (JObject demo_no_screenshot)
         demo_failure demo_session
       = (demo_session, [ErrorPayload message], Next)
       /\ status (ErrorPayload message) = "error"
       /\ message_loop demo_prompt demo_parse 0 [ev; demo_init_exchange] h
          = (let '(h', out, st) :=
               message_loop demo_prompt demo_parse 0 [demo_init_exchange] h in
             (h', ErrorPayload message :: out, st)).
Proof.
  intros ev h. split; [repeat split|].
  apply (invalid_message_rejected demo_prompt demo_parse 0 ev
           [demo_init_exchange] h demo_no_screenshot demo_session).
  - reflexivity.
  - reflexivity.
  - left. split; [left|]; reflexivity.
Defined.

Lemma unrecognized_action_finishes_witness :
  let request := demo_reply "all done" "The order is placed." in
  let s1 := step_session "AppOpen" "IMGB" demo_session in
  (truthy (dict_get demo_step "screenshot") = true
   /\ update_context demo_prompt demo_step demo_session = Some s1
   /\ demo_parse "The order is placed." = Raise demo_value_error)
  /\ exists (s2 : AgentSession) (reply : OutMsg),
       loop_body demo_prompt demo_parse (JObject demo_step) request
         demo_session
       = (s2, [reply], Next)
       /\ context s2
          = context s1
            ++ [ {| role := assistant;
                    content := [TextPart (assistant_text "all done"
                                            "The order is placed.")] |} ]
       /\ step_count s2 = step_count s1
       /\ reply
          = SuccessPayload (step_count s1) "all done"
              (finish_action "The order is placed.") "The order is placed."
              true
       /\ status reply = "success"
       /\ finish_action "The order is placed." !! "message"
          = Some (AStr "The order is placed.").
Proof.
  intros request s1. split; [repeat split|].
  apply (unrecognized_action_finishes demo_prompt demo_parse demo_step
           request demo_session s1
           {| thinking := "all done"; action := "The order is placed." |}
           demo_value_error); reflexivity.
Defined.

Lemma unknown_type_reaches_model_witness :
  let request := demo_reply "look" "do(action=Home)" in
  (truthy (dict_get demo_unknown_type "screenshot") = true
   /\ py_eq_str (dict_get demo_unknown_type "type") "init" = false
   /\ py_eq_str (dict_get demo_unknown_type "type") "step" = false)
  /\ loop_body demo_prompt demo_parse (JObject demo_unknown_type) request
       demo_session
     = (add_assistant_response "look" "do(action=Home)" demo_session,
        [SuccessPayload 1 "look" demo_home "do(action=Home)" false],
        Next).
Proof.
  intros request. split; [repeat split|].
  apply (unknown_type_reaches_model demo_prompt demo_parse demo_unknown_type
           request demo_session
           {| thinking := "look"; action := "do(action=Home)" |} demo_home);
    reflexivity.
Defined.

Lemma failed_inference_keeps_user_turn_witness :
  let u1 := MessageBuilder.create_user_message (step_text "AppOpen")
              (Some "IMGB") in
  let u2 := MessageBuilder.create_user_message (step_text "Unknown Page")
              (Some "IMGC") in
  let s1 := step_session "AppOpen" "IMGB" demo_session in
  let failed :=
    {| received := Ok (JObject demo_step); model_request := demo_failure |} in
  let answered :=
    {| received := Ok (JObject demo_step2);
       model_request := demo_reply "look" "do(action=Home)" |} in
  let h : gmap nat AgentSession := {[0 := demo_session]} in
  loop_body demo_prompt demo_parse (JObject demo_step) demo_failure
    demo_session
  = (s1, [ErrorPayload "Model inference failed: Connection refused"], Next)
  /\ last (context s1) = Some u1
  /\ message_loop demo_prompt demo_parse 0 [failed] h
     = (<[0 := s1]> h,
        [ErrorPayload "Model inference failed: Connection refused"],
        Receiving)
  /\ exists s2 : AgentSession,
       loop_body demo_prompt demo_parse (JObject demo_step2)
         (demo_reply "look" "do(action=Home)") s1
       = (s2, [SuccessPayload 3 "look" demo_home "do(action=Home)" false],
          Next)
       /\ context s2
          = context demo_session
            ++ [MessageBuilder.remove_images_from_message u1; u2;
                MessageBuilder.create_assistant_message
                  (assistant_text "look" "do(action=Home)")]
       /\ message_loop demo_prompt demo_parse 0 [failed; answered] h
          = (<[0 := s2]> h,
             [ErrorPayload "Model inference failed: Connection refused";
              SuccessPayload 3 "look" demo_home "do(action=Home)" false],
             Receiving).
Proof.
  intros u1 u2 s1 failed answered h.
  destruct (failed_inference_keeps_user_turn demo_prompt demo_parse demo_step
              demo_failure demo_session demo_refused
              eq_refl eq_refl eq_refl)
    as (Hbody & _ & Hlast & _ & Hloop1 & Hnext).
  split; [exact Hbody|]. split; [exact Hlast|].
  split; [exact (Hloop1 0 h eq_refl)|].
  destruct (Hnext demo_step2 (demo_reply "look" "do(action=Home)")
              {| thinking := "look"; action := "do(action=Home)" |} demo_home
              eq_refl eq_refl eq_refl eq_refl)
    as (s2 & Hb2 & Hc2 & _ & _ & Hloop2).
  exists s2. split; [exact Hb2|]. split; [exact Hc2|].
  exact (Hloop2 0 h [] eq_refl).
Defined.

Lemma step_before_init_is_accepted_witness :
  let s0 := AgentSession_init "c1" in
  let u := {| role := user;
              content := [TextPart (step_text "AppOpen");
                          ImagePart "IMGB"] |} in
  let s2 := add_assistant_response "look" "do(action=Home)"
              (step_session "AppOpen" "IMGB" s0) in
  let h : gmap nat AgentSession := {[0 := s0]} in
  context s0 = []
  /\ context (step_session "AppOpen" "IMGB" s0) = [u]
  /\ step_count (step_session "AppOpen" "IMGB" s0) = 1%Z
  /\ message_loop demo_prompt demo_parse 0
       [demo_step_exchange; demo_array] h
     = (let '(h', out, st) :=
          message_loop demo_prompt demo_parse 0 [demo_array]
            (<[0 := s2]> h) in
        (h',
         SuccessPayload 1 "look" demo_home "do(action=Home)" false :: out,
         st)).
Proof.
  intros s0 u s2 h.
  destruct (step_before_init_is_accepted demo_prompt demo_parse s0 eq_refl)
    as [Hsession Hloop].
  split; [reflexivity|].
  split; [exact (proj1 (Hsession "AppOpen" "IMGB"))|].
  split; [exact (proj2 (Hsession "AppOpen" "IMGB"))|].
  destruct (Hloop demo_step (demo_reply "look" "do(action=Home)")
              eq_refl eq_refl) as [_ Hrun].
  exact (Hrun 0 h [demo_array]
           {| thinking := "look"; action := "do(action=Home)" |} demo_home
           eq_refl eq_refl eq_refl).
Defined.



Lemma endpoint_exception_keeps_entry_witness :
  let h : gmap nat AgentSession := {[0 := AgentSession_init "c1"]} in
  let e := no_attribute "list" "get" in
  (message_loop demo_prompt demo_parse (fresh (dom (heap Server_init)))
     [demo_array] (heap (connect (Socket 1) "c1" Server_init))
   = (h, [], Raised e)
   /\ exn_class e <> WebSocketDisconnect)
  /\ exists srv' : Server,
       websocket_endpoint demo_prompt demo_parse (Socket 1) "c1"
         [demo_array] Server_init
       = (srv', [] ++ [ErrorPayload (exn_str e)], Returned)
       /\ active_connections (manager srv') !! "c1" = Some (Socket 1)
       /\ sessions (manager srv') !! "c1"
          = Some (fresh (dom (heap Server_init))).
Proof.
  intros h e. split; [split; [vm_compute; reflexivity|discriminate]|].
  apply (endpoint_exception_keeps_entry demo_prompt demo_parse (Socket 1)
           "c1" [demo_array] Server_init h [] e).
  - vm_compute. reflexivity.
  - discriminate.
Defined.

(** The same run, evaluated: the handler has returned and the registry
    still lists client [c1]. *)
Example endpoint_leaks_on_array_payload :
  let '(srv', out, st) :=
    websocket_endpoint demo_prompt demo_parse (Socket 1) "c1"
      [demo_init_exchange; demo_array] Server_init in
  st = Returned
  /\ out = [SuccessPayload 1 "open the app" demo_home "do(action=Home)" false;
            ErrorPayload "'list' object has no attribute 'get'"]
  /\ active_connections (manager srv') !! "c1" = Some (Socket 1)
  /\ registered_session "c1" srv' = Some demo_session.
Proof. vm_compute. repeat split. Qed.

(** C1 on a run of the handler: after an answered [init] and an answered
    [step] the session of client [c1] has images in both user turns. *)
Example endpoint_two_image_turns :
  let answered_step_exchange :=
    {| received := Ok (JObject demo_step);
       model_request := demo_reply "look" "do(action=Home)" |} in
  let srv' :=
    fst (fst (websocket_endpoint demo_prompt demo_parse (Socket 1) "c1"
                [demo_init_exchange; answered_step_exchange] Server_init)) in
  (map has_image ∘ context) <$> registered_session "c1" srv'
  = Some [false; true; false; true; false].
Proof. vm_compute. reflexivity. Qed.

(** With a peer disconnect in place of the array the entry is removed. *)
Example endpoint_cleans_up_on_disconnect :
  let closed := {| received := Raise {| exn_class := WebSocketDisconnect;
                                        exn_str := "1006" |};
                   model_request := demo_failure |} in
  let '(srv', out, st) :=
    websocket_endpoint demo_prompt demo_parse (Socket 1) "c1"
      [demo_init_exchange; closed] Server_init in
  st = Returned
  /\ active_connections (manager srv') !! "c1" = None
  /\ sessions (manager srv') !! "c1" = None.
Proof. vm_compute. repeat split. Qed.

(** * Further properties of the registry *)

(** X1: [disconnect] is idempotent, it leaves no entry for the client in
    either dict, and on a client without entries it changes nothing. *)
Theorem disconnect_idempotent (cid : string) (m : ConnectionManager) :
  disconnect cid (disconnect cid m) = disconnect cid m
  /\ get_session cid (disconnect cid m) = None
  /\ active_connections (disconnect cid m) !! cid = None
  /\ (active_connections m !! cid = None -> sessions m !! cid = None ->
      disconnect cid m = m).
Proof.
  destruct (disconnect_removes cid m) as [Ha Hs].
  split; [|split; [exact Hs|split; [exact Ha|]]].
  - unfold disconnect at 1. rewrite Ha, Hs.
    rewrite !decide_False by (intros [? ?]; discriminate).
    destruct (disconnect cid m). reflexivity.
  - intros Ha0 Hs0. unfold disconnect. rewrite Ha0, Hs0.
    rewrite !decide_False by (intros [? ?]; discriminate).
    destruct m. reflexivity.
Qed.

(** X2: for a client that is not registered, [connect] followed by
    [disconnect] gives back the registry as it was. *)
Theorem connect_disconnect_roundtrip (websocket : WebSocket) (cid : string)
    (srv : Server) :
  active_connections (manager srv) !! cid = None ->
  sessions (manager srv) !! cid = None ->
  disconnect cid (manager (connect websocket cid srv)) = manager srv.
Proof.
  intros Ha Hs. unfold disconnect, connect. cbn [manager active_connections
    sessions]. rewrite !lookup_insert_eq.
  rewrite !decide_True by eauto.
  rewrite !delete_insert_id by assumption.
  destruct (manager srv). reflexivity.
Qed.

Lemma connect_disconnect_roundtrip_witness :
  (active_connections (manager demo_server) !! "c2" = None
   /\ sessions (manager demo_server) !! "c2" = None)
  /\ disconnect "c2" (manager (connect (Socket 2) "c2" demo_server))
     = manager demo_server.
Proof.
  split; [split; vm_compute; reflexivity|].
  apply (connect_disconnect_roundtrip (Socket 2) "c2" demo_server);
    vm_compute; reflexivity.
Defined.

Lemma registered_session_connect_other (websocket : WebSocket)
    (cid cid' : string) (srv : Server) (s : AgentSession) :
  cid <> cid' ->
  registered_session cid' srv = Some s ->
  registered_session cid' (connect websocket cid srv) = Some s.
Proof.
  intros Hne. unfold registered_session, get_session, connect.
  cbn [manager sessions heap]. rewrite lookup_insert_ne by exact Hne.
  destruct (sessions (manager srv) !! cid') as [l|]; [|discriminate].
  intros Hl. rewrite lookup_insert_ne; [exact Hl|].
  intros E. rewrite <- E in Hl.
  rewrite (connect_fresh_object websocket cid srv) in Hl. discriminate.
Qed.

(** X3: [connect] for one client leaves the entries of every other client
    as they are: the same connection handle, the same session reference,
    and the session object behind it unchanged. *)
Theorem connect_other_client (websocket : WebSocket) (cid cid' : string)
    (srv : Server) :
  cid <> cid' ->
  active_connections (manager (connect websocket cid srv)) !! cid'
  = active_connections (manager srv) !! cid'
  /\ get_session cid' (manager (connect websocket cid srv))
     = get_session cid' (manager srv)
  /\ forall s : AgentSession,
       registered_session cid' srv = Some s ->
       registered_session cid' (connect websocket cid srv) = Some s.
Proof.
  intros Hne. split; [|split].
  - unfold connect. cbn [manager active_connections].
    apply lookup_insert_ne, Hne.
  - unfold connect, get_session. cbn [manager sessions].
    apply lookup_insert_ne, Hne.
  - intros s. apply registered_session_connect_other, Hne.
Qed.

Lemma connect_other_client_witness :
  "c2" <> "c1"
  /\ active_connections (manager (connect (Socket 2) "c2" demo_server)) !! "c1"
     = Some (Socket 1)
  /\ registered_session "c1" (connect (Socket 2) "c2" demo_server)
     = Some demo_session.
Proof.
  destruct (connect_other_client (Socket 2) "c2" "c1" demo_server)
    as (Ha & _ & Hs); [discriminate|].
  split; [discriminate|]. split.
  - rewrite Ha. vm_compute. reflexivity.
  - apply Hs. vm_compute. reflexivity.
Defined.

(** X4: [disconnect] for one client leaves the entries of every other
    client as they are. *)
Theorem disconnect_other_client (cid cid' : string) (m : ConnectionManager) :
  cid <> cid' ->
  active_connections (disconnect cid m) !! cid'
  = active_connections m !! cid'
  /\ get_session cid' (disconnect cid m) = get_session cid' m.
Proof. intros Hne. apply disconnect_other, Hne. Qed.

Lemma disconnect_other_client_witness :
  let m := manager (connect (Socket 2) "c2" demo_server) in
  "c2" <> "c1"
  /\ active_connections (disconnect "c2" m) !! "c1" = Some (Socket 1)
  /\ get_session "c1" (disconnect "c2" m) = Some 0.
Proof.
  intros m.
  destruct (disconnect_other_client "c2" "c1" m) as (Ha & Hs);
    [discriminate|].
  split; [discriminate|]. split.
  - rewrite Ha. vm_compute. reflexivity.
  - rewrite Hs. vm_compute. reflexivity.
Defined.

(** X5: after [connect] the registry leads to a session with the client's
    id, an empty context and step counter 0, held in an object that did not
    exist before: no reference of the earlier registry whose object exists
    is equal to the new one. *)
Theorem connect_registers_fresh_session (websocket : WebSocket)
    (cid : string) (srv : Server) :
  let srv' := connect websocket cid srv in
  active_connections (manager srv') !! cid = Some websocket
  /\ registered_session cid srv'
     = Some {| client_id := cid; context := []; step_count := 0 |}
  /\ forall (cid' : string) (l : nat),
       get_session cid' (manager srv) = Some l ->
       is_Some (heap srv !! l) ->
       get_session cid (manager srv') <> Some l.
Proof.
  intros srv'. destruct (connect_lookup websocket cid srv) as (Ha & Hg & Hh).
  cbv zeta in Hg, Hh. split; [exact Ha|]. split.
  - unfold registered_session. fold srv' in Hg, Hh. rewrite Hg. exact Hh.
  - intros cid' l _ [s Hl] E. fold srv' in Hg. rewrite Hg in E.
    injection E as E. rewrite <- E in Hl.
    rewrite (connect_fresh_object websocket cid srv) in Hl. discriminate.
Qed.

(** * Further properties of the session *)


Lemma unanswered_steps_cons (x : string * string)
    (xs : list (string * string)) (s : AgentSession) :
  unanswered_steps (x :: xs) s
  = unanswered_steps xs (step_session (fst x) (snd x) s).
Proof. reflexivity. Qed.




Lemma roles_exchanges (xs : list StepExchange) :
  map role (concat (map exchange_turns xs))
  = concat (replicate (length xs) [user; assistant]).
Proof.
  induction xs as [|x xs IH]; [reflexivity|].
  change (concat (map exchange_turns (x :: xs)))
    with (exchange_turns x ++ concat (map exchange_turns xs)).
  rewrite List.map_app, IH. reflexivity.
Qed.

Lemma length_concat_pairs (n : nat) (a b : Role) :
  length (concat (replicate n [a; b])) = 2 * n.
Proof. induction n as [|n IH]; simpl in *; lia. Qed.

(** X7: while every exchange is answered, the context is the system turn
    followed by user and assistant turns in alternation: one pair for the
    initialisation and one for every step, so [3 + 2 n] turns after [n]
    steps. *)
Theorem roles_alternate_over_answered_steps (SYSTEM_PROMPT : string)
    (task screen_info screenshot thinking action_str : string)
    (xs : list StepExchange) (s0 : AgentSession) :
  let s :=
    answered_steps xs
      (add_assistant_response thinking action_str
         (init_session SYSTEM_PROMPT task screen_info screenshot s0)) in
  map role (context s)
  = system :: concat (replicate (S (length xs)) [user; assistant])
  /\ length (context s) = 3 + 2 * length xs.
Proof.
  intros s.
  assert (Hr : map role (context s)
               = system :: concat (replicate (S (length xs))
                                     [user; assistant])).
  { unfold s.
    destruct (answered_steps_context xs
                (add_assistant_response thinking action_str
                   (init_session SYSTEM_PROMPT task screen_info screenshot s0)))
      as [Hc _].
    { eexists _, _. split; reflexivity. }
    rewrite Hc, List.map_app, roles_exchanges. reflexivity. }
  split; [exact Hr|].
  rewrite <- (List.length_map role), Hr. cbn [length].
  rewrite length_concat_pairs. lia.
Qed.

Lemma step_session_history (screen_info screenshot : string)
    (s : AgentSession) :
  history_extends (context s)
    (context (step_session screen_info screenshot s))
    [MessageBuilder.create_user_message (step_text screen_info)
       (Some screenshot)].
Proof.
  unfold history_extends. destruct (last (context s)) as [m|] eqn:Hl.
  - apply last_Some in Hl as [pre Hpre].
    rewrite (step_session_snoc _ _ _ _ _ Hpre), Hpre.
    rewrite !List.map_app. cbn [map]. rewrite text_parts_remove_images.
    rewrite <- !app_assoc. split; reflexivity.
  - apply last_None in Hl. unfold step_session. cbn [context].
    rewrite Hl. split; reflexivity.
Qed.

Lemma history_extends_refl (ctx : list Message) : history_extends ctx ctx [].
Proof. unfold history_extends. cbn [map]. rewrite !app_nil_r. auto. Qed.

Lemma history_extends_snoc (ctx ctx' added : list Message) (m : Message) :
  history_extends ctx ctx' added ->
  history_extends ctx (ctx' ++ [m]) (added ++ [m]).
Proof.
  intros [Hr Ht]. unfold history_extends.
  rewrite !List.map_app, Hr, Ht, <- !app_assoc. auto.
Qed.

(** X8: [step_session] keeps the role and the text parts of every turn of
    the context, empty or not, in their order, and appends one user turn
    whose text is the screen info under its heading. *)
Theorem step_session_keeps_roles_and_text (screen_info screenshot : string)
    (s : AgentSession) :
  let s' := step_session screen_info screenshot s in
  map role (context s') = map role (context s) ++ [user]
  /\ map text_parts (context s')
     = map text_parts (context s)
       ++ [[TextPart ("** Screen Info **" +:+ nl +:+ nl +:+ screen_info)]].
Proof. exact (step_session_history screen_info screenshot s). Qed.

Lemma image_turns_single (m : Message) :
  image_turns [m] = if has_image m then 1 else 0.
Proof. unfold image_turns. simpl. destruct (has_image m); reflexivity. Qed.

(** X9: [step_session] removes the image of at most one turn, the last one
    on entry, and adds one turn with an image: the number of turns with
    image data stays the same when the last turn had an image, and grows by
    one when it had none or when the context was empty. *)
Theorem step_session_image_count (screen_info screenshot : string)
    (s : AgentSession) :
  image_turns (context (step_session screen_info screenshot s))
  = match last (context s) with
    | Some m =>
        if has_image m then image_turns (context s)
        else S (image_turns (context s))
    | None => 1
    end.
Proof.
  destruct (last (context s)) as [m|] eqn:Hl.
  - apply last_Some in Hl as [pre Hpre].
    rewrite (step_session_snoc _ _ _ _ _ Hpre), Hpre.
    rewrite !image_turns_app.
    change [MessageBuilder.remove_images_from_message m;
            MessageBuilder.create_user_message (step_text screen_info)
              (Some screenshot)]
      with ([MessageBuilder.remove_images_from_message m]
            ++ [MessageBuilder.create_user_message (step_text screen_info)
                  (Some screenshot)]).
    rewrite image_turns_app, !image_turns_single, has_image_remove_images.
    change (has_image (MessageBuilder.create_user_message
                         (step_text screen_info) (Some screenshot)))
      with true.
    destruct (has_image m); lia.
  - apply last_None in Hl. unfold step_session. cbn [context].
    rewrite Hl. reflexivity.
Qed.

Lemma image_only_last_count (ctx : list Message) :
  image_only_last ctx ->
  image_turns ctx = 1
  /\ exists m, last ctx = Some m /\ has_image m = true.
Proof.
  intros (pre & m & Hc & Hpre & Hm). subst ctx. split.
  - rewrite image_turns_app, Hpre, image_turns_single, Hm. reflexivity.
  - exists m. split; [apply last_snoc|exact Hm].
Qed.

Lemma step_session_image_only_last (screen_info screenshot : string)
    (s : AgentSession) :
  image_only_last (context s) ->
  image_only_last (context (step_session screen_info screenshot s)).
Proof.
  intros (pre & m & Hc & Hpre & Hm).
  exists (pre ++ [MessageBuilder.remove_images_from_message m]),
    (MessageBuilder.create_user_message (step_text screen_info)
       (Some screenshot)).
  split; [|split].
  - rewrite (step_session_snoc _ _ _ _ _ Hc), <- app_assoc. reflexivity.
  - rewrite image_turns_app, Hpre, image_turns_single.
    rewrite has_image_remove_images. reflexivity.
  - reflexivity.
Qed.

Lemma unanswered_steps_image_only_last (xs : list (string * string)) :
  forall s : AgentSession,
    image_only_last (context s) ->
    image_only_last (context (unanswered_steps xs s)).
Proof.
  induction xs as [|x xs IH]; intros s H; [exact H|].
  rewrite unanswered_steps_cons.
  apply IH, step_session_image_only_last, H.
Qed.

(** X10: when no reply is recorded between the steps (every model call
    failed), the compaction does reach the previous user turn: after
    [init_session] and any number of such steps exactly one turn carries
    image data, and it is the last one. *)
Theorem single_image_over_unanswered_steps (SYSTEM_PROMPT : string)
    (task screen_info screenshot : string) (xs : list (string * string))
    (s0 : AgentSession) :
  let s :=
    unanswered_steps xs
      (init_session SYSTEM_PROMPT task screen_info screenshot s0) in
  image_turns (context s) = 1
  /\ exists m : Message, last (context s) = Some m /\ has_image m = true.
Proof.
  intros s. apply image_only_last_count.
  apply unanswered_steps_image_only_last.
  exists [MessageBuilder.create_system_message SYSTEM_PROMPT],
    (MessageBuilder.create_user_message (init_text task screen_info)
       (Some screenshot)).
  repeat split.
Qed.

(** * Further properties of the loop and the handler *)

Section LoopFacts.

Variable SYSTEM_PROMPT : string.
Variable parse_action : string -> Result (gmap string ActionValue).

Local Abbreviation body := (loop_body SYSTEM_PROMPT parse_action).
Local Abbreviation loop := (message_loop SYSTEM_PROMPT parse_action).
Local Abbreviation endpoint :=
  (websocket_endpoint SYSTEM_PROMPT parse_action).

Lemma update_context_init (d : gmap string pyval) (s : AgentSession) :
  py_eq_str (dict_get d "type") "init" = true ->
  truthy (dict_get d "task") = true ->
  update_context SYSTEM_PROMPT d s
  = Some (init_session SYSTEM_PROMPT (py_str (dict_get d "task"))
            (py_str (dict_get_default d "screen_info" (PyStr "Unknown Page")))
            (py_str (dict_get d "screenshot")) s).
Proof.
  intros Hinit Htask. unfold update_context. rewrite Hinit, Htask.
  reflexivity.
Qed.

Lemma update_context_client_id (d : gmap string pyval)
    (s s1 : AgentSession) :
  update_context SYSTEM_PROMPT d s = Some s1 -> client_id s1 = client_id s.
Proof.
  unfold update_context. intros H.
  repeat case_match; simplify_eq; reflexivity.
Qed.

Lemma loop_body_client_id (data : Json)
    (request : list Message -> Result ModelResponse) (s : AgentSession) :
  client_id (fst (fst (body data request s))) = client_id s.
Proof.
  unfold loop_body. destruct data as [d|ty]; [|reflexivity].
  destruct (negb (truthy (dict_get d "screenshot"))); [reflexivity|].
  destruct (update_context SYSTEM_PROMPT d s) as [s1|] eqn:Hup;
    [|reflexivity].
  apply update_context_client_id in Hup.
  destruct (request (context s1)); [|exact Hup].
  destruct (parse_or_finish parse_action (action a)); exact Hup.
Qed.

(** A pass through the body sends exactly one payload when the loop goes
    on and none when an exception leaves the loop. *)
Lemma loop_body_replies (data : Json)
    (request : list Message -> Result ModelResponse) (s : AgentSession) :
  match snd (body data request s) with
  | Next => length (snd (fst (body data request s))) = 1
  | Propagate _ => snd (fst (body data request s)) = []
  end.
Proof.
  unfold loop_body. destruct data as [d|ty]; [|reflexivity].
  destruct (negb (truthy (dict_get d "screenshot"))); [reflexivity|].
  destruct (update_context SYSTEM_PROMPT d s) as [s1|]; [|reflexivity].
  destruct (request (context s1)); [|reflexivity].
  destruct (parse_or_finish parse_action (action a)); reflexivity.
Qed.

(** X11: the loop composes over the stream of messages: when a first batch
    has been handled without an exception, handling a longer stream is
    handling the rest from the store the first batch left, with the
    replies in order. *)
Theorem message_loop_app (session : nat) (evs1 evs2 : list Exchange) :
  forall (h h1 : gmap nat AgentSession) (out1 : list OutMsg),
    loop session evs1 h = (h1, out1, Receiving) ->
    loop session (evs1 ++ evs2) h
    = (let '(h2, out2, st) := loop session evs2 h1 in
       (h2, out1 ++ out2, st)).
Proof.
  induction evs1 as [|ev evs1 IH]; intros h h1 out1 H.
  - simpl in H. injection H as <- <-. simpl.
    destruct (loop session evs2 h) as [[h2 out2] st]. reflexivity.
  - simpl in H |- *. destruct (received ev) as [data|e]; [|discriminate].
    destruct (h !! session) as [s|]; [|discriminate].
    destruct (body data (model_request ev) s) as [[s' out] flow].
    destruct flow as [|e]; [|discriminate].
    destruct (loop session evs1 (<[session:=s']> h)) as [[h' out'] st] eqn:E.
    injection H as <- <- ->.
    rewrite (IH _ _ _ E).
    destruct (loop session evs2 h') as [[h2 out2] st2].
    rewrite app_assoc. reflexivity.
Qed.

(** X12: the loop never resumes after an exception: once a stream of
    messages has ended the loop, no later message changes the store, the
    replies or the exception. *)
Theorem message_loop_stops (session : nat) (evs rest : list Exchange) :
  forall (h h1 : gmap nat AgentSession) (out1 : list OutMsg) (e : Exn),
    loop session evs h = (h1, out1, Raised e) ->
    loop session (evs ++ rest) h = (h1, out1, Raised e).
Proof.
  induction evs as [|ev evs IH]; intros h h1 out1 e H.
  - discriminate H.
  - simpl in H |- *. destruct (received ev) as [data|e0]; [|exact H].
    destruct (h !! session) as [s|]; [|exact H].
    destruct (body data (model_request ev) s) as [[s' out] flow].
    destruct flow as [|e0]; [|exact H].
    destruct (loop session evs (<[session:=s']> h)) as [[h' out'] st] eqn:E.
    injection H as <- <- ->.
    rewrite (IH _ _ _ _ E). reflexivity.
Qed.

(** X13: one reply per message: while the loop is still receiving, the
    handler has sent exactly as many payloads as it has received messages;
    when an exception has ended the loop, the message or receive that
    raised it got no reply from the loop. *)
Theorem one_reply_per_message (session : nat) (evs : list Exchange) :
  forall h : gmap nat AgentSession,
    match snd (loop session evs h) with
    | Receiving => length (snd (fst (loop session evs h))) = length evs
    | Raised _ => length (snd (fst (loop session evs h))) < length evs
    end.
Proof.
  induction evs as [|ev evs IH]; intros h; [reflexivity|].
  simpl. destruct (received ev) as [data|e]; [|simpl; lia].
  destruct (h !! session) as [s|]; [|simpl; lia].
  pose proof (loop_body_replies data (model_request ev) s) as Hb.
  destruct (body data (model_request ev) s) as [[s' out] flow].
  simpl in Hb. destruct flow as [|e].
  - specialize (IH (<[session:=s']> h)).
    destruct (loop session evs (<[session:=s']> h)) as [[h' out'] st].
    simpl in IH |- *. rewrite length_app.
    destruct st; lia.
  - subst out. simpl. lia.
Qed.

Lemma message_loop_other_object (session l : nat) (evs : list Exchange) :
  l <> session ->
  forall h : gmap nat AgentSession,
    fst (fst (loop session evs h)) !! l = h !! l.
Proof.
  intros Hne. induction evs as [|ev evs IH]; intros h; [reflexivity|].
  simpl. destruct (received ev) as [data|e]; [|reflexivity].
  destruct (h !! session) as [s|]; [|reflexivity].
  destruct (body data (model_request ev) s) as [[s' out] flow].
  destruct flow as [|e].
  - specialize (IH (<[session:=s']> h)).
    destruct (loop session evs (<[session:=s']> h)) as [[h' out'] st].
    simpl in IH |- *. rewrite IH. apply lookup_insert_ne. congruence.
  - simpl. apply lookup_insert_ne. congruence.
Qed.

Lemma message_loop_session_object (session : nat) (evs : list Exchange) :
  forall (h : gmap nat AgentSession) (s : AgentSession),
    h !! session = Some s ->
    exists s' : AgentSession,
      fst (fst (loop session evs h)) !! session = Some s'
      /\ client_id s' = client_id s.
Proof.
  induction evs as [|ev evs IH]; intros h s Hs; [exists s; auto|].
  simpl. destruct (received ev) as [data|e]; [|exists s; auto].
  rewrite Hs.
  pose proof (loop_body_client_id data (model_request ev) s) as Hid.
  destruct (body data (model_request ev) s) as [[s' out] flow].
  simpl in Hid. destruct flow as [|e].
  - destruct (IH (<[session:=s']> h) s' (lookup_insert_eq _ _ _))
      as (s'' & Hl & Hc).
    destruct (loop session evs (<[session:=s']> h)) as [[h' out'] st].
    exists s''. split; [exact Hl|congruence].
  - exists s'. split; [apply lookup_insert_eq|exact Hid].
Qed.

Lemma endpoint_manager (websocket : WebSocket) (cid : string)
    (events : list Exchange) (srv : Server) :
  let srv' := fst (fst (endpoint websocket cid events srv)) in
  heap srv'
  = fst (fst (loop (fresh (dom (heap srv))) events
                (heap (connect websocket cid srv))))
  /\ (manager srv' = manager (connect websocket cid srv)
      \/ manager srv' = disconnect cid (manager (connect websocket cid srv))).
Proof.
  cbv zeta. rewrite websocket_endpoint_loop. cbv zeta.
  destruct (loop (fresh (dom (heap srv))) events
              (heap (connect websocket cid srv))) as [[h out] st].
  destruct st as [|e]; [simpl; auto|].
  unfold handle_exit. destruct (exn_class e); simpl; auto.
Qed.

(** X14: a handler leaves every other client alone: whatever messages it
    handles and however it ends, the registry entries of another client
    id and the session object behind them are what they were before the
    connection. *)
Theorem endpoint_other_client (websocket : WebSocket) (cid cid' : string)
    (events : list Exchange) (srv : Server) :
  cid <> cid' ->
  let srv' := fst (fst (endpoint websocket cid events srv)) in
  active_connections (manager srv') !! cid'
  = active_connections (manager srv) !! cid'
  /\ get_session cid' (manager srv') = get_session cid' (manager srv)
  /\ forall s : AgentSession,
       registered_session cid' srv = Some s ->
       registered_session cid' srv' = Some s.
Proof.
  intros Hne srv'.
  destruct (endpoint_manager websocket cid events srv) as [Hh Hm].
  fold srv' in Hh, Hm.
  assert (Ha : active_connections (manager srv') !! cid'
               = active_connections (manager srv) !! cid').
  { destruct Hm as [-> | ->].
    - unfold connect. cbn [manager active_connections].
      apply lookup_insert_ne, Hne.
    - rewrite (proj1 (disconnect_other cid cid' _ Hne)).
      unfold connect. cbn [manager active_connections].
      apply lookup_insert_ne, Hne. }
  assert (Hg : get_session cid' (manager srv')
               = get_session cid' (manager srv)).
  { unfold get_session. destruct Hm as [-> | ->].
    - unfold connect. cbn [manager sessions].
      apply lookup_insert_ne, Hne.
    - rewrite (proj2 (disconnect_other cid cid' _ Hne)).
      unfold connect. cbn [manager sessions].
      apply lookup_insert_ne, Hne. }
  split; [exact Ha|]. split; [exact Hg|].
  intros s. unfold registered_session. rewrite Hg.
  destruct (get_session cid' (manager srv)) as [l|]; [|discriminate].
  intros Hl. rewrite Hh.
  assert (Hfresh : l <> fresh (dom (heap srv))).
  { intros E. rewrite E in Hl.
    rewrite (connect_fresh_object websocket cid srv) in Hl. discriminate. }
  rewrite (message_loop_other_object _ _ _ Hfresh).
  apply connect_keeps_objects, Hl.
Qed.

Lemma endpoint_keeps_entry_of_other (websocket websocket0 : WebSocket)
    (cid cid0 : string) (events : list Exchange) (srv : Server)
    (s0 : AgentSession) :
  cid <> cid0 ->
  active_connections (manager srv) !! cid0 = Some websocket0 ->
  registered_session cid0 srv = Some s0 ->
  let srv' := fst (fst (endpoint websocket cid events srv)) in
  active_connections (manager srv') !! cid0 = Some websocket0
  /\ registered_session cid0 srv' = Some s0.
Proof.
  intros Hne Ha0 Hr0 srv'.
  destruct (endpoint_manager websocket cid events srv) as [Hh Hm].
  fold srv' in Hh, Hm.
  assert (Hc : active_connections (manager (connect websocket cid srv)) !! cid0
               = Some websocket0
               /\ sessions (manager (connect websocket cid srv)) !! cid0
                  = sessions (manager srv) !! cid0).
  { unfold connect. cbn [manager active_connections sessions].
    rewrite !lookup_insert_ne by exact Hne. auto. }
  destruct Hc as [Hca Hcs].
  assert (Hl : active_connections (manager srv') !! cid0 = Some websocket0
               /\ sessions (manager srv') !! cid0
                  = sessions (manager srv) !! cid0).
  { destruct Hm as [-> | ->]; [auto|].
    destruct (disconnect_other cid cid0
                (manager (connect websocket cid srv)) Hne) as [-> ->].
    auto. }
  destruct Hl as [Hla Hls]. split; [exact Hla|].
  revert Hr0. unfold registered_session, get_session. rewrite Hls.
  destruct (sessions (manager srv) !! cid0) as [l|]; [|discriminate].
  intros Hl. rewrite Hh.
  assert (Hfresh : l <> fresh (dom (heap srv))).
  { intros E. rewrite E in Hl.
    rewrite (connect_fresh_object websocket cid srv) in Hl. discriminate. }
  rewrite (message_loop_other_object _ _ _ Hfresh).
  apply connect_keeps_objects, Hl.
Qed.

Lemma run_connections_keep_entry (websocket0 : WebSocket) (cid0 : string)
    (s0 : AgentSession) (others : list Connection) :
  Forall (fun c => conn_id c <> cid0) others ->
  forall srv : Server,
    active_connections (manager srv) !! cid0 = Some websocket0 ->
    registered_session cid0 srv = Some s0 ->
    active_connections
      (manager (run_connections SYSTEM_PROMPT parse_action others srv))
      !! cid0 = Some websocket0
    /\ registered_session cid0
         (run_connections SYSTEM_PROMPT parse_action others srv)
       = Some s0.
Proof.
  induction 1 as [|c others Hc _ IH]; intros srv Ha Hr; [auto|].
  destruct (endpoint_keeps_entry_of_other (conn_socket c) websocket0
              (conn_id c) cid0 (conn_events c) srv s0 Hc Ha Hr)
    as [Ha' Hr'].
  exact (IH _ Ha' Hr').
Qed.

(** X15: a handler that has connected and handled its messages without an
    exception leaving the loop is registered: the registry holds its
    connection handle and leads to a session object that carries the
    client's id.  The entry and the session object are still the same
    after any handler runs of connections with other client ids that
    follow.  (A connection with the same client id would replace the
    entry, and its disconnect remove it.) *)
Theorem waiting_handler_is_registered (websocket : WebSocket) (cid : string)
    (events : list Exchange) (srv : Server) (others : list Connection) :
  snd (endpoint websocket cid events srv) = Waiting ->
  Forall (fun c => conn_id c <> cid) others ->
  let srv' := fst (fst (endpoint websocket cid events srv)) in
  let srv'' := run_connections SYSTEM_PROMPT parse_action others srv' in
  active_connections (manager srv') !! cid = Some websocket
  /\ exists s : AgentSession,
       registered_session cid srv' = Some s
       /\ client_id s = cid
       /\ active_connections (manager srv'') !! cid = Some websocket
       /\ registered_session cid srv'' = Some s.
Proof.
  intros Hw Hothers srv' srv''.
  destruct (connect_lookup websocket cid srv) as (Ha & Hg & Hobj).
  cbv zeta in Hg, Hobj.
  destruct (message_loop_session_object (fresh (dom (heap srv))) events
              _ _ Hobj) as (s & Hs & Hc).
  assert (Hm : manager srv' = manager (connect websocket cid srv)
               /\ heap srv'
                  = fst (fst (loop (fresh (dom (heap srv))) events
                                (heap (connect websocket cid srv))))).
  { unfold srv'. revert Hw. rewrite websocket_endpoint_loop. cbv zeta.
    destruct (loop (fresh (dom (heap srv))) events
                (heap (connect websocket cid srv))) as [[h out] st].
    destruct st as [|e]; [simpl; auto|].
    destruct (handle_exit cid (manager (connect websocket cid srv)) e).
    discriminate. }
  destruct Hm as [Hm Hh].
  assert (Ha' : active_connections (manager srv') !! cid = Some websocket)
    by (rewrite Hm; exact Ha).
  assert (Hr' : registered_session cid srv' = Some s).
  { unfold registered_session. rewrite Hm, Hg, Hh. exact Hs. }
  split; [exact Ha'|]. exists s.
  split; [exact Hr'|]. split; [exact Hc|].
  exact (run_connections_keep_entry websocket cid s others Hothers srv'
           Ha' Hr').
Qed.

(** X16: the default of [screen_info] applies to a missing key only: a
    [step] message without the key is recorded under the text
    [Unknown Page], one whose [screen_info] is [null] under the text
    [None], and a string is recorded as it is. *)
Theorem step_screen_info_default (d : gmap string pyval) (s : AgentSession) :
  py_eq_str (dict_get d "type") "step" = true ->
  exists s1 : AgentSession,
    update_context SYSTEM_PROMPT d s = Some s1
    /\ last (context s1)
       = Some {| role := user;
                 content :=
                   [TextPart ("** Screen Info **" +:+ nl +:+ nl +:+
                              match d !! "screen_info" with
                              | None => "Unknown Page"
                              | Some PyNone => "None"
                              | Some (PyStr t) => t
                              end);
                    ImagePart (py_str (dict_get d "screenshot"))] |}.
Proof.
  intros Hstep. eexists. split; [apply update_context_step, Hstep|].
  unfold step_session. cbn [context]. rewrite last_snoc.
  unfold dict_get_default. destruct (d !! "screen_info") as [[|t]|];
    reflexivity.
Qed.

(** X17: a valid [init] message that the model answers starts the task
    afresh whatever the session held before: the context is the system
    turn, the user turn of the task and the assistant turn, one turn
    carries an image, and the payload reports step 1. *)
Theorem init_message_restarts (d : gmap string pyval)
    (request : list Message -> Result ModelResponse)
    (s : AgentSession) (response : ModelResponse)
    (action_data : gmap string ActionValue) :
  let task := py_str (dict_get d "task") in
  let screen_info :=
    py_str (dict_get_default d "screen_info" (PyStr "Unknown Page")) in
  let screenshot := py_str (dict_get d "screenshot") in
  truthy (dict_get d "screenshot") = true ->
  py_eq_str (dict_get d "type") "init" = true ->
  truthy (dict_get d "task") = true ->
  request (context (init_session SYSTEM_PROMPT task screen_info screenshot s))
  = Ok response ->
  parse_or_finish parse_action (action response) = Ok action_data ->
  exists s2 : AgentSession,
    body (JObject d) request s
    = (s2,
       [SuccessPayload 1 (thinking response) action_data (action response)
          (is_finish action_data)],
       Next)
    /\ context s2
       = [ {| role := system; content := [TextPart SYSTEM_PROMPT] |};
           {| role := user;
              content := [TextPart (init_text task screen_info);
                          ImagePart screenshot] |};
           {| role := assistant;
              content := [TextPart (assistant_text (thinking response)
                                      (action response))] |} ]
    /\ step_count s2 = 1%Z
    /\ image_turns (context s2) = 1.
Proof.
  intros task screen_info screenshot Hshot Hinit Htask Hreq Hparse.
  eexists. split; [|split; [|split]].
  - apply (loop_body_answered SYSTEM_PROMPT parse_action d request s _
             response action_data Hshot
             (update_context_init d s Hinit Htask) Hreq Hparse).
  - reflexivity.
  - reflexivity.
  - reflexivity.
Qed.

(** X18: an exception of [parse_action] other than [ValueError] ends the
    loop: the message gets no reply from the loop, the session keeps the
    update made for the message but no assistant turn, and the messages
    behind it are not handled. *)
Theorem parse_crash_ends_loop (session : nat) (ev : Exchange)
    (rest : list Exchange) (h : gmap nat AgentSession)
    (d : gmap string pyval) (s s1 : AgentSession)
    (response : ModelResponse) (e : Exn) :
  received ev = Ok (JObject d) ->
  h !! session = Some s ->
  truthy (dict_get d "screenshot") = true ->
  update_context SYSTEM_PROMPT d s = Some s1 ->
  model_request ev (context s1) = Ok response ->
  parse_action (action response) = Raise e ->
  exn_class e <> ValueError ->
  loop session (ev :: rest) h = (<[session := s1]> h, [], Raised e).
Proof.
  intros Hrecv Hs Hshot Hup Hreq Hparse Hclass. simpl.
  rewrite Hrecv, Hs. unfold loop_body.
  rewrite Hshot, Hup, Hreq. unfold parse_or_finish. rewrite Hparse.
  destruct (exn_class e); try reflexivity. congruence.
Qed.

(** X19: when the peer disconnects, the handler returns without sending
    anything more, both registry entries of the client are gone, and the
    store is the one the loop left. *)
Theorem peer_disconnect_cleans_up (websocket : WebSocket) (cid : string)
    (events : list Exchange) (srv : Server) (h : gmap nat AgentSession)
    (out : list OutMsg) (e : Exn) :
  loop (fresh (dom (heap srv))) events (heap (connect websocket cid srv))
  = (h, out, Raised e) ->
  exn_class e = WebSocketDisconnect ->
  exists srv' : Server,
    endpoint websocket cid events srv = (srv', out, Returned)
    /\ heap srv' = h
    /\ active_connections (manager srv') !! cid = None
    /\ get_session cid (manager srv') = None
    /\ registered_session cid srv' = None.
Proof.
  intros H Hc. rewrite websocket_endpoint_loop. cbv zeta. rewrite H.
  unfold handle_exit. rewrite Hc. eexists. split.
  - rewrite app_nil_r. reflexivity.
  - cbn [manager heap].
    destruct (disconnect_removes cid (manager (connect websocket cid srv)))
      as [Ha Hs].
    unfold registered_session, get_session. cbn [manager].
    rewrite Hs. auto.
Qed.

(** X20: apart from [init], no message makes the session forget anything:
    for a message whose type is not [init], whatever its fields and
    whatever the model and the parser do, every turn of the context keeps
    its place, its role and its text parts, and at most two turns are
    added behind them. *)
Theorem history_is_append_only (d : gmap string pyval)
    (request : list Message -> Result ModelResponse) (s : AgentSession) :
  py_eq_str (dict_get d "type") "init" = false ->
  let s' := fst (fst (body (JObject d) request s)) in
  exists added : list Message,
    history_extends (context s) (context s') added
    /\ length added <= 2
    /\ (step_count s <= step_count s' <= step_count s + 1)%Z.
Proof.
  intros Hinit. cbv zeta. unfold loop_body.
  destruct (negb (truthy (dict_get d "screenshot"))).
  { exists []. split; [apply history_extends_refl|]. simpl. lia. }
  unfold update_context. rewrite Hinit.
  destruct (py_eq_str (dict_get d "type") "step").
  - set (si := py_str (dict_get_default d "screen_info"
                         (PyStr "Unknown Page"))).
    set (ss := py_str (dict_get d "screenshot")).
    pose proof (step_session_history si ss s) as Hstep.
    assert (Hc : step_count (step_session si ss s) = (step_count s + 1)%Z)
      by reflexivity.
    destruct (request (context (step_session si ss s))) as [response|e].
    + destruct (parse_or_finish parse_action (action response)).
      * eexists. split; [apply history_extends_snoc, Hstep|].
        cbn [fst step_count add_assistant_response length app]. lia.
      * eexists. split; [exact Hstep|]. cbn [fst length]. lia.
    + eexists. split; [exact Hstep|]. cbn [fst length]. lia.
  - destruct (request (context s)) as [response|e].
    + destruct (parse_or_finish parse_action (action response)).
      * eexists. split;
          [apply (history_extends_snoc _ _ []), history_extends_refl|].
        cbn [fst step_count add_assistant_response length app]. lia.
      * exists []. split; [apply history_extends_refl|]. simpl. lia.
    + exists []. split; [apply history_extends_refl|]. simpl. lia.
Qed.

End LoopFacts.

(** * The further properties on concrete runs *)

Lemma message_loop_app_witness :
  let h : gmap nat AgentSession := {[0 := AgentSession_init "c1"]} in
  let h1 : gmap nat AgentSession := {[0 := demo_session]} in
  let out1 :=
    [SuccessPayload 1 "open the app" demo_home "do(action=Home)" false] in
  message_loop demo_prompt demo_parse 0 [demo_init_exchange] h
  = (h1, out1, Receiving)
  /\ message_loop demo_prompt demo_parse 0
       ([demo_init_exchange] ++ [demo_step_exchange]) h
     = (let '(h2, out2, st) :=
          message_loop demo_prompt demo_parse 0 [demo_step_exchange] h1 in
        (h2, out1 ++ out2, st)).
Proof.
  intros h h1 out1.
  assert (H : message_loop demo_prompt demo_parse 0 [demo_init_exchange] h
              = (h1, out1, Receiving)) by (vm_compute; reflexivity).
  split; [exact H|].
  exact (message_loop_app demo_prompt demo_parse 0 [demo_init_exchange]
           [demo_step_exchange] h h1 out1 H).
Defined.

Lemma message_loop_stops_witness :
  let h : gmap nat AgentSession := {[0 := demo_session]} in
  let e := no_attribute "list" "get" in
  message_loop demo_prompt demo_parse 0 [demo_array] h = (h, [], Raised e)
  /\ message_loop demo_prompt demo_parse 0
       ([demo_array] ++ [demo_step_exchange]) h
     = (h, [], Raised e).
Proof.
  intros h e.
  assert (H : message_loop demo_prompt demo_parse 0 [demo_array] h
              = (h, [], Raised e)) by (vm_compute; reflexivity).
  split; [exact H|].
  exact (message_loop_stops demo_prompt demo_parse 0 [demo_array]
           [demo_step_exchange] h h [] e H).
Defined.

Lemma endpoint_other_client_witness :
  let srv' :=
    fst (fst (websocket_endpoint demo_prompt demo_parse (Socket 2) "c2"
                [demo_init_exchange; demo_array] demo_server)) in
  "c2" <> "c1"
  /\ registered_session "c1" demo_server = Some demo_session
  /\ active_connections (manager srv') !! "c1" = Some (Socket 1)
  /\ registered_session "c1" srv' = Some demo_session.
Proof.
  intros srv'.
  assert (Hs : registered_session "c1" demo_server = Some demo_session)
    by (vm_compute; reflexivity).
  destruct (endpoint_other_client demo_prompt demo_parse (Socket 2) "c2" "c1"
              [demo_init_exchange; demo_array] demo_server)
    as (Ha & _ & Hr); [discriminate|].
  split; [discriminate|]. split; [exact Hs|]. split.
  - unfold srv'. rewrite Ha. vm_compute. reflexivity.
  - apply Hr, Hs.
Defined.

Lemma waiting_handler_is_registered_witness :
  let r := websocket_endpoint demo_prompt demo_parse (Socket 1) "c1"
             [demo_init_exchange] Server_init in
  let others :=
    [ {| conn_socket := Socket 2; conn_id := "c2";
         conn_events := [demo_init_exchange; demo_array] |};
      {| conn_socket := Socket 3; conn_id := "c3";
         conn_events := [demo_step_exchange; demo_closed] |} ] in
  let srv'' := run_connections demo_prompt demo_parse others (fst (fst r)) in
  (snd r = Waiting /\ Forall (fun c => conn_id c <> "c1") others)
  /\ active_connections (manager (fst (fst r))) !! "c1" = Some (Socket 1)
  /\ exists s : AgentSession,
       registered_session "c1" (fst (fst r)) = Some s
       /\ client_id s = "c1"
       /\ active_connections (manager srv'') !! "c1" = Some (Socket 1)
       /\ registered_session "c1" srv'' = Some s.
Proof.
  intros r others srv''.
  assert (H : snd r = Waiting) by (vm_compute; reflexivity).
  assert (Ho : Forall (fun c => conn_id c <> "c1") others)
    by (repeat constructor; discriminate).
  split; [split; [exact H|exact Ho]|].
  exact (waiting_handler_is_registered demo_prompt demo_parse (Socket 1) "c1"
           [demo_init_exchange] Server_init others H Ho).
Defined.

Lemma step_screen_info_default_witness :
  py_eq_str (dict_get demo_step2 "type") "step" = true
  /\ exists s1 : AgentSession,
       update_context demo_prompt demo_step2 demo_session = Some s1
       /\ last (context s1)
          = Some {| role := user;
                    content :=
                      [TextPart ("** Screen Info **" +:+ nl +:+ nl +:+
                                 "Unknown Page");
                       ImagePart "IMGC"] |}.
Proof.
  split; [reflexivity|].
  exact (step_screen_info_default demo_prompt demo_step2 demo_session
           eq_refl).
Defined.

Lemma init_message_restarts_witness :
  let s := step_session "AppOpen" "IMGB" demo_session in
  length (context s) = 4
  /\ exists s2 : AgentSession,
       loop_body demo_prompt demo_parse (JObject demo_init)
         (demo_reply "open the app" "do(action=Home)") s
       = (s2,
          [SuccessPayload 1 "open the app" demo_home "do(action=Home)" false],
          Next)
       /\ context s2 = context demo_session
       /\ step_count s2 = 1%Z
       /\ image_turns (context s2) = 1.
Proof.
  intros s. split; [reflexivity|].
  exact (init_message_restarts demo_prompt demo_parse demo_init
           (demo_reply "open the app" "do(action=Home)") s
           {| thinking := "open the app"; action := "do(action=Home)" |}
           demo_home eq_refl eq_refl eq_refl eq_refl eq_refl).
Defined.

Lemma parse_crash_ends_loop_witness :
  let h : gmap nat AgentSession := {[0 := demo_session]} in
  let s1 := step_session "AppOpen" "IMGB" demo_session in
  let e := {| exn_class := OtherException; exn_str := "parser crashed" |} in
  (h !! 0 = Some demo_session
   /\ update_context demo_prompt demo_step demo_session = Some s1
   /\ demo_broken_parse "do(action=Home)" = Raise e)
  /\ message_loop demo_prompt demo_broken_parse 0
       [demo_step_exchange; demo_init_exchange] h
     = (<[0 := s1]> h, [], Raised e).
Proof.
  intros h s1 e. split; [repeat split|].
  apply (parse_crash_ends_loop demo_prompt demo_broken_parse 0
           demo_step_exchange [demo_init_exchange] h demo_step demo_session
           s1 {| thinking := "look"; action := "do(action=Home)" |} e);
    try reflexivity.
  discriminate.
Defined.

Lemma peer_disconnect_cleans_up_witness :
  let h : gmap nat AgentSession := {[0 := demo_session]} in
  let out :=
    [SuccessPayload 1 "open the app" demo_home "do(action=Home)" false] in
  let e := {| exn_class := WebSocketDisconnect; exn_str := "1006" |} in
  message_loop demo_prompt demo_parse (fresh (dom (heap Server_init)))
    [demo_init_exchange; demo_closed]
    (heap (connect (Socket 1) "c1" Server_init))
  = (h, out, Raised e)
  /\ exists srv' : Server,
       websocket_endpoint demo_prompt demo_parse (Socket 1) "c1"
         [demo_init_exchange; demo_closed] Server_init
       = (srv', out, Returned)
       /\ heap srv' = h
       /\ active_connections (manager srv') !! "c1" = None
       /\ get_session "c1" (manager srv') = None
       /\ registered_session "c1" srv' = None.
Proof.
  intros h out e.
  assert (H : message_loop demo_prompt demo_parse
                (fresh (dom (heap Server_init)))
                [demo_init_exchange; demo_closed]
                (heap (connect (Socket 1) "c1" Server_init))
              = (h, out, Raised e)) by (vm_compute; reflexivity).
  split; [exact H|].
  exact (peer_disconnect_cleans_up demo_prompt demo_parse (Socket 1) "c1"
           [demo_init_exchange; demo_closed] Server_init h out e H eq_refl).
Defined.

Lemma history_is_append_only_witness :
  let s' :=
    fst (fst (loop_body demo_prompt demo_parse (JObject demo_step)
                (demo_reply "look" "do(action=Home)") demo_session)) in
  py_eq_str (dict_get demo_step "type") "init" = false
  /\ exists added : list Message,
       history_extends (context demo_session) (context s') added
       /\ length added <= 2
       /\ (step_count demo_session <= step_count s'
           <= step_count demo_session + 1)%Z.
Proof.
  intros s'. split; [reflexivity|].
  exact (history_is_append_only demo_prompt demo_parse demo_step
           (demo_reply "look" "do(action=Home)") demo_session eq_refl).
Defined.
